(** * Currency-Convertify: rate resolution, rate cache, history and trends

    A shallow embedding of [currency_converter.py] (version 3.0.0).

    - Python [float] is IEEE binary64: modelled by Rocq's primitive floats,
      with Python's [ZeroDivisionError] on a zero divisor written out.
    - Python exceptions are an explicit [result]; code that touches the
      disk, the network or the optional libraries runs in the monad [M],
      which threads a [world] (the two JSON files and a trace of the
      lookups and external accesses performed). Console output is not
      part of the world.
    - [datetime] values are microseconds on [Z]; the text form of a
      timestamp is a [string], and [datetime.fromisoformat] /
      [datetime.isoformat] / [strftime] are an interface ([Datetime]) of
      which [canonical_datetime] is one instance (the format that
      [isoformat] itself writes).
    - dictionaries whose values have one type are [gmap string _]; the
      dictionaries built by the trend analysis keep Python's insertion
      order as association lists.

    Typing restriction: JSON read from disk or from the network is taken at
    the types the program writes (a rate table maps codes to floats, a
    history file is a list of conversion records); a value may still be
    missing, unparsable or zero. A conversion record is a value: each call
    of [add_conversion] is given a dictionary of its own, as
    [convert_currency] does. Dates stay inside the range of [datetime]. *)

From Stdlib Require Import ZArith Floats Ascii String.
From stdpp Require Import base option list gmap strings sorting.

Set Warnings "-inexact-float".

(** ** Python values and exceptions *)

Inductive exn :=
  | ZeroDivisionError
  | KeyError
  | ValueError
  | IOError
  | JSONDecodeError
  | IndexError
  | RequestException
  | LibraryError.

Inductive result (A : Type) :=
  | Ok (a : A)
  | Raise (e : exn).
Arguments Ok {A} a.
Arguments Raise {A} e.

Definition is_ok {A} (r : result A) : bool :=
  match r with Ok _ => true | Raise _ => false end.

Global Instance result_ret : MRet result := λ A a, Ok a.
Global Instance result_bind : MBind result := λ A B f r,
  match r with
  | Ok a => f a
  | Raise e => Raise e
  end.

(** [x / y] on Python floats. *)
Definition py_truediv (x y : float) : result float :=
  if PrimFloat.eqb y 0 then Raise ZeroDivisionError else Ok (x / y)%float.

(** [bool(x)] for a float [x]. *)
Definition py_truthy (x : float) : bool := negb (PrimFloat.eqb x 0).

(** [d[k]] on a dictionary. *)
Definition py_getitem {V} (d : gmap string V) (k : string) : result V :=
  match d !! k with
  | Some v => Ok v
  | None => Raise KeyError
  end.

(** [k in d] on a dictionary. *)
Definition py_in {V} (k : string) (d : gmap string V) : bool :=
  bool_decide (is_Some (d !! k)).

(** [l[start:]] on a list, for any integer [start]. *)
Definition py_slice_from {A} (start : Z) (l : list A) : list A :=
  let len := Z.of_nat (length l) in
  let lo := if (start <? 0)%Z then Z.max 0 (start + len) else Z.min start len in
  drop (Z.to_nat lo) l.

(** ** Dates and times

    A [datetime] is a number of microseconds; a [timedelta] likewise. *)

Definition timedelta_seconds (s : Z) : Z := (s * 1000000)%Z.
Definition timedelta_days (d : Z) : Z := (d * 86400 * 1000000)%Z.

Class Datetime := {
  fromisoformat : string → option Z;   (* [None]: the call raises *)
  isoformat : Z → string;
  strftime_readable : Z → string       (* strftime("%Y-%m-%d %H:%M:%S") *)
}.

(** ** Configuration *)

Module Config.
Definition SUPPORTED_CURRENCIES : list (string * string) :=
    [ ("USD", "US Dollar"); ("EUR", "Euro"); ("GBP", "British Pound Sterling");
      ("JPY", "Japanese Yen"); ("OMR", "Omani Rial"); ("AUD", "Australian Dollar");
      ("CAD", "Canadian Dollar"); ("CHF", "Swiss Franc"); ("CNY", "Chinese Yuan");
      ("INR", "Indian Rupee"); ("AED", "UAE Dirham"); ("SAR", "Saudi Riyal");
      ("KWD", "Kuwaiti Dinar"); ("BHD", "Bahraini Dinar"); ("QAR", "Qatari Riyal");
      ("NOK", "Norwegian Krone"); ("SEK", "Swedish Krona"); ("DKK", "Danish Krone");
      ("PLN", "Polish Zloty"); ("CZK", "Czech Koruna") ].

Definition HISTORY_FILE : string := "conversion_history.json".
Definition RATES_CACHE_FILE : string := "rates_cache.json".

Definition API_TIMEOUT : Z := 3.
Definition CACHE_DURATION : Z := 300.

Definition DECIMAL_PLACES : Z := 4.
Definition MAX_HISTORY_ENTRIES : Z := 100.
End Config.

(** [code in Config.SUPPORTED_CURRENCIES] *)
Definition supported (code : string) : bool :=
  bool_decide (code ∈ Config.SUPPORTED_CURRENCIES.*1).

(** ** The world outside the process *)

Abbreviation RateTable := (gmap string float).

(** The dictionary kept in [rates_cache.json] and in [self.rates_cache]:
    its two keys, each present or not. [{}] is [empty_dict]. *)
Record cache_dict := {
  cache_rates : option RateTable;
  cache_timestamp : option string
}.

Definition empty_dict : cache_dict :=
  {| cache_rates := None; cache_timestamp := None |}.

Record conversion := {
  amount : float;
  from_currency : string;
  to_currency : string;
  exchange_rate : float;
  converted_amount : float;
  timestamp : option string;
  readable_time : option string
}.

Inductive file (A : Type) :=
  | FileMissing                 (* os.path.exists is False *)
  | FileCorrupt                 (* json.load raises JSONDecodeError *)
  | FileData (a : A).
Arguments FileMissing {A}.
Arguments FileCorrupt {A}.
Arguments FileData {A} a.

(** What the program asks of the outside, in order. *)
Inductive event :=
  | EvCacheLookup                          (* self.rates_cache consulted *)
  | EvCacheFileRead
  | EvCacheFileWrite
  | EvHttpGet (url : string)
  | EvForexGetRate (f t : string)
  | EvLibConvert (f t : string)
  | EvFallbackLookup                       (* self.fallback_rates consulted *)
  | EvHistoryFileRead
  | EvHistoryFileWrite.

Record world := {
  rates_cache_file : file cache_dict;
  history_file : file (list conversion);
  trace : list event
}.

Inductive json_body :=
  | BodyInvalid                              (* response.json() raises *)
  | BodyObject (rates : option RateTable).  (* the 'rates' key, if any *)

Record response := {
  status_code : Z;
  body : json_body
}.

Inductive http_outcome :=
  | HttpRaises
  | HttpReturns (r : response).

Inductive lib_outcome :=
  | LibRaises
  | LibReturns (rate : float).

(** What a call finds around it: the clock, whether a file can be opened
    for writing, what each endpoint answers, and the optional libraries.
    With [disk_writable] the write goes through; without it [open] is
    refused with an IOError and the file is not touched. A write that
    breaks after the file was opened, which leaves it truncated, is not
    among the cases. *)
Record environment := {
  now : Z;
  disk_writable : bool;
  requests_get : string → http_outcome;
  FOREX_AVAILABLE : bool;
  CONVERTER_AVAILABLE : bool;
  forex_get_rate : string → string → lib_outcome;   (* CurrencyRates.get_rate *)
  cc_convert_one : string → string → lib_outcome    (* CC().convert(1, f, t) *)
}.

(** ** The monad of effectful methods *)

Definition M (A : Type) : Type := world → result A * world.

Global Instance M_ret : MRet M := λ A a w, (Ok a, w).
Global Instance M_bind : MBind M := λ A B f m w,
  match m w with
  | (Ok a, w') => f a w'
  | (Raise e, w') => (Raise e, w')
  end.

Definition raise {A} (e : exn) : M A := λ w, (Raise e, w).

Definition lift {A} (r : result A) : M A := λ w, (r, w).

Definition add_trace (evs : list event) (w : world) : world :=
  {| rates_cache_file := rates_cache_file w;
     history_file := history_file w;
     trace := trace w ++ evs |}.

Definition emit (e : event) : M unit := λ w, (Ok tt, add_trace [e] w).

Definition read_cache_file : M (file cache_dict) := λ w, (Ok (rates_cache_file w), w).

Definition write_cache_file (c : cache_dict) : M unit := λ w,
  (Ok tt, {| rates_cache_file := FileData c;
             history_file := history_file w;
             trace := trace w |}).

Definition read_history_file : M (file (list conversion)) :=
  λ w, (Ok (history_file w), w).

Definition write_history_file (h : list conversion) : M unit := λ w,
  (Ok tt, {| rates_cache_file := rates_cache_file w;
             history_file := FileData h;
             trace := trace w |}).

(** [try: body  except <classes>: handler] *)
Definition try_except {A} (body : M A) (catches : exn → bool) (handler : M A) : M A :=
  λ w, match body w with
       | (Raise e, w') => if catches e then handler w' else (Raise e, w')
       | r => r
       end.

Definition any_exception (e : exn) : bool := true.

(** ** DataManager (on the history file, its only use) *)

Definition load_json_file : M (list conversion) :=
  try_except
    (_ ← emit EvHistoryFileRead;
     f ← read_history_file;
     match f with
     | FileMissing => mret []
     | FileCorrupt => raise JSONDecodeError
     | FileData data => mret data
     end)
    (λ e, match e with JSONDecodeError | IOError => true | _ => false end)
    (mret []).

(** A failed save is a failure to open the file for writing: the file
    keeps its content. What is stated below of a failed save is stated of
    this case. *)
Definition save_json_file (env : environment) (data : list conversion) : M bool :=
  try_except
    (_ ← emit EvHistoryFileWrite;
     if disk_writable env
     then _ ← write_history_file data; mret true
     else raise IOError)
    (λ e, match e with IOError => true | _ => false end)
    (mret false).

(** ** ExchangeRateService *)

Inductive CurrencyRates := CurrencyRates_new.
Inductive LibCurrencyConverter := LibCurrencyConverter_new.

Record ExchangeRateService := {
  forex_rates : option CurrencyRates;
  lib_converter : option LibCurrencyConverter;
  rates_cache : cache_dict;
  api_endpoints : list string;
  fallback_rates : RateTable
}.

Definition API_ENDPOINTS : list string :=
  [ "https://api.exchangerate-api.com/v4/latest/USD";
    "https://api.fixer.io/latest?base=USD";
    "https://open.er-api.com/v6/latest/USD" ].

Definition FALLBACK_RATES_ITEMS : list (string * float) :=
  [ ("USD", 1.0); ("EUR", 0.8520); ("GBP", 0.7315); ("JPY", 110.25);
    ("OMR", 0.3845); ("AUD", 1.3520); ("CAD", 1.2475); ("CHF", 0.9185);
    ("CNY", 6.4520); ("INR", 74.15); ("AED", 3.6725); ("SAR", 3.7500);
    ("KWD", 0.3015); ("BHD", 0.3770); ("QAR", 3.6400); ("NOK", 8.5200);
    ("SEK", 8.7500); ("DKK", 6.3400); ("PLN", 3.9800); ("CZK", 21.5000) ]%float.

Definition FALLBACK_RATES : RateTable := list_to_map FALLBACK_RATES_ITEMS.

Section WithDatetime.
Context `{Datetime}.

Definition datetime_fromisoformat (s : string) : result Z :=
  match fromisoformat s with
  | Some t => Ok t
  | None => Raise ValueError
  end.

Definition _load_cache (env : environment) : M cache_dict :=
  try_except
    (_ ← emit EvCacheFileRead;
     f ← read_cache_file;
     match f with
     | FileMissing => mret empty_dict
     | FileCorrupt => raise JSONDecodeError
     | FileData cache =>
         match cache_timestamp cache with
         | Some ts =>
             cache_time ← lift (datetime_fromisoformat ts);
             if (now env - cache_time <? timedelta_seconds Config.CACHE_DURATION)%Z
             then mret cache
             else mret empty_dict
         | None => mret empty_dict
         end
     end)
    any_exception
    (mret empty_dict).

Definition _save_cache (env : environment) (rates : RateTable) : M unit :=
  try_except
    (let cache_data := {| cache_rates := Some rates;
                          cache_timestamp := Some (isoformat (now env)) |} in
     _ ← emit EvCacheFileWrite;
     if disk_writable env
     then write_cache_file cache_data
     else raise IOError)
    any_exception
    (mret tt).

(** One turn of the loop of [_fetch_rates_from_api]: [Some rates] when the
    body reaches its [return]. *)
Definition fetch_one (env : environment) (api_url : string) : M (option RateTable) :=
  try_except
    (_ ← emit (EvHttpGet api_url);
     match requests_get env api_url with
     | HttpRaises => raise RequestException
     | HttpReturns response =>
         if (status_code response =? 200)%Z then
           match body response with
           | BodyInvalid => raise JSONDecodeError
           | BodyObject (Some rates) => mret (Some rates)
           | BodyObject None => mret None
           end
         else mret None
     end)
    any_exception
    (mret None).

Fixpoint fetch_loop (env : environment) (urls : list string) : M (option RateTable) :=
  match urls with
  | [] => mret None
  | api_url :: rest =>
      r ← fetch_one env api_url;
      match r with
      | Some rates => mret (Some rates)
      | None => fetch_loop env rest
      end
  end.

Definition _fetch_rates_from_api (self : ExchangeRateService) (env : environment)
  : M (option RateTable) :=
  fetch_loop env (api_endpoints self).

(** [bool(rates)] for the [Optional[Dict]] returned by the fetch. *)
Definition rates_truthy (rates : option RateTable) : bool :=
  match rates with
  | Some r => negb (bool_decide (r = ∅))
  | None => false
  end.

Definition get_all_rates (self : ExchangeRateService) (env : environment)
    (base_currency : string) : M RateTable :=
  _ ← emit EvCacheLookup;
  match cache_rates (rates_cache self), String.eqb base_currency "USD" with
  | Some cached, true => mret cached
  | _, _ =>
      rates ← _fetch_rates_from_api self env;
      match rates with
      | Some r =>
          if rates_truthy rates then
            let filtered_rates := filter (λ kv, supported kv.1 = true) r in
            _ ← _save_cache env filtered_rates;
            mret filtered_rates
          else
            _ ← emit EvFallbackLookup; mret (fallback_rates self)
      | None => _ ← emit EvFallbackLookup; mret (fallback_rates self)
      end
  end.

Definition _get_fallback_rate (self : ExchangeRateService)
    (from_currency to_currency : string) : M float :=
  try_except
    (_ ← emit EvFallbackLookup;
     if py_in from_currency (fallback_rates self) && py_in to_currency (fallback_rates self)
     then
       from_rate ← lift (py_getitem (fallback_rates self) from_currency);
       to_rate ← lift (py_getitem (fallback_rates self) to_currency);
       lift (py_truediv to_rate from_rate)
     else mret 1.0%float)
    (λ e, match e with KeyError | ZeroDivisionError => true | _ => false end)
    (mret 1.0%float).

(** [if rate and rate > 0: return float(rate)] *)
Definition usable_rate (rate : float) : bool :=
  py_truthy rate && PrimFloat.ltb 0 rate.

Definition library_attempt (ev : event) (outcome : lib_outcome) : M (option float) :=
  try_except
    (_ ← emit ev;
     match outcome with
     | LibRaises => raise LibraryError
     | LibReturns rate => if usable_rate rate then mret (Some rate) else mret None
     end)
    any_exception
    (mret None).

Definition get_exchange_rate (self : ExchangeRateService) (env : environment)
    (from_currency to_currency : string) : M float :=
  if String.eqb from_currency to_currency then mret 1.0%float else
  all_rates ← get_all_rates self env "USD";
  if String.eqb from_currency "USD" && py_in to_currency all_rates then
    lift (py_getitem all_rates to_currency)
  else if String.eqb to_currency "USD" && py_in from_currency all_rates then
    d ← lift (py_getitem all_rates from_currency);
    lift (py_truediv 1.0 d)
  else if py_in from_currency all_rates && py_in to_currency all_rates then
    n ← lift (py_getitem all_rates to_currency);
    d ← lift (py_getitem all_rates from_currency);
    lift (py_truediv n d)
  else
    r1 ← (if FOREX_AVAILABLE env && bool_decide (is_Some (forex_rates self))
          then library_attempt (EvForexGetRate from_currency to_currency)
                 (forex_get_rate env from_currency to_currency)
          else mret None);
    match r1 with
    | Some rate => mret rate
    | None =>
        r2 ← (if CONVERTER_AVAILABLE env && bool_decide (is_Some (lib_converter self))
              then library_attempt (EvLibConvert from_currency to_currency)
                     (cc_convert_one env from_currency to_currency)
              else mret None);
        match r2 with
        | Some rate => mret rate
        | None => _get_fallback_rate self from_currency to_currency
        end
    end.

(** [ExchangeRateService.__init__] *)
Definition ExchangeRateService_init (env : environment) : M ExchangeRateService :=
  cache ← _load_cache env;
  mret {| forex_rates := if FOREX_AVAILABLE env then Some CurrencyRates_new else None;
          lib_converter := if CONVERTER_AVAILABLE env then Some LibCurrencyConverter_new else None;
          rates_cache := cache;
          api_endpoints := API_ENDPOINTS;
          fallback_rates := FALLBACK_RATES |}.

(** ** ConversionHistory *)

Record ConversionHistory := {
  history : list conversion
}.

Definition ConversionHistory_init : M ConversionHistory :=
  h ← load_json_file;
  mret {| history := h |}.

(** [conversion_data.update({'timestamp': ..., 'readable_time': ...})] *)
Definition stamp (env : environment) (conversion_data : conversion) : conversion :=
  {| amount := amount conversion_data;
     from_currency := from_currency conversion_data;
     to_currency := to_currency conversion_data;
     exchange_rate := exchange_rate conversion_data;
     converted_amount := converted_amount conversion_data;
     timestamp := Some (isoformat (now env));
     readable_time := Some (strftime_readable (now env)) |}.

(** The statements before the save cannot raise on a typed record, so the
    object is already updated when the handler runs. *)
Definition add_conversion (self : ConversionHistory) (env : environment)
    (conversion_data : conversion) : M ConversionHistory :=
  let appended := history self ++ [stamp env conversion_data] in
  let kept :=
    if (Config.MAX_HISTORY_ENTRIES <? Z.of_nat (length appended))%Z
    then py_slice_from (- Config.MAX_HISTORY_ENTRIES) appended
    else appended in
  let self' := {| history := kept |} in
  try_except
    (_ ← save_json_file env (history self');
     mret self')
    any_exception
    (mret self').

Definition get_recent_history (self : ConversionHistory) (limit : Z) : list conversion :=
  match history self with
  | [] => []
  | _ => py_slice_from (- limit) (history self)
  end.

Definition clear_history (self : ConversionHistory) (env : environment)
  : M (ConversionHistory * bool) :=
  let self' := {| history := [] |} in
  saved ← save_json_file env (history self');
  mret (self', saved).

(** *** Trend analysis *)

Record rate_point := {
  rate : float;
  time : string
}.

Record trend := {
  change_percent : float;
  direction : string;
  oldest_rate : float;
  newest_rate : float;
  data_points : nat
}.

(** Dictionaries in insertion order. *)
Fixpoint alist_lookup {V} (k : string) (d : list (string * V)) : option V :=
  match d with
  | [] => None
  | (k', v) :: rest => if String.eqb k k' then Some v else alist_lookup k rest
  end.

(** [d[k] = v] *)
Fixpoint alist_set {V} (k : string) (v : V) (d : list (string * V)) : list (string * V) :=
  match d with
  | [] => [(k, v)]
  | (k', v') :: rest =>
      if String.eqb k k' then (k', v) :: rest else (k', v') :: alist_set k v rest
  end.

(** [if k not in d: d[k] = []] followed by [d[k].append(x)] *)
Definition alist_append {V} (k : string) (x : V) (d : list (string * list V))
  : list (string * list V) :=
  match alist_lookup k d with
  | None => alist_set k [x] d
  | Some xs => alist_set k (xs ++ [x]) d
  end.

(** The body of the [try] in the first loop: [True] when the record is kept. *)
Definition in_window (cutoff_date : Z) (c : conversion) : bool :=
  match timestamp c with
  | Some ts =>
      match fromisoformat ts with
      | Some conv_time => (cutoff_date <=? conv_time)%Z
      | None => false
      end
  | None => false
  end.

Definition pair_key (c : conversion) : string :=
  from_currency c +:+ "/" +:+ to_currency c.

Definition group_step (currency_rates : list (string * list rate_point)) (c : conversion)
  : result (list (string * list rate_point)) :=
  ts ← match timestamp c with Some ts => Ok ts | None => Raise KeyError end;
  Ok (alist_append (pair_key c) {| rate := exchange_rate c; time := ts |} currency_rates).

Fixpoint group_by_pair (currency_rates : list (string * list rate_point))
    (recent : list conversion) : result (list (string * list rate_point)) :=
  match recent with
  | [] => Ok currency_rates
  | c :: rest =>
      currency_rates' ← group_step currency_rates c;
      group_by_pair currency_rates' rest
  end.

(** [rates.sort(key=lambda x: x['time'])]: a stable sort on the text of the
    timestamp. *)
Fixpoint insert_by_time (x : rate_point) (l : list rate_point) : list rate_point :=
  match l with
  | [] => [x]
  | y :: ys =>
      if String.leb (time x) (time y) then x :: y :: ys
      else y :: insert_by_time x ys
  end.

Fixpoint sort_by_time (l : list rate_point) : list rate_point :=
  match l with
  | [] => []
  | x :: xs => insert_by_time x (sort_by_time xs)
  end.

(** The integer nearest to [num / den] ([den > 0]), ties to even. *)
Definition round_half_even (num den : Z) : Z :=
  let q := (num / den)%Z in
  let r := (num mod den)%Z in
  match (2 * r ?= den)%Z with
  | Lt => q
  | Gt => (q + 1)%Z
  | Eq => if Z.even q then q else (q + 1)%Z
  end.

(** [round(x, 2)]: the exact value of [x] rounded half-even to two decimals,
    then the nearest float to that decimal. From 2^46 on, floats are
    further apart than 0.01 and round to themselves. *)
Definition py_round2 (x : float) : float :=
  match Prim2SF x with
  | S754_finite s m e =>
      if PrimFloat.leb 70368744177664 (PrimFloat.abs x) then x
      else
        let n := if (e <? 0)%Z
                 then round_half_even (100 * Z.pos m) (2 ^ (- e))
                 else (100 * Z.pos m * 2 ^ e)%Z in
        let r := (PrimFloat.of_uint63 (Uint63.of_Z n) / 100)%float in
        if s then (- r)%float else r
  | _ => x
  end.

Definition classify (change_percent : float) : string :=
  if PrimFloat.ltb 1 change_percent then "rising"
  else if PrimFloat.ltb change_percent (-1) then "falling"
  else "stable".

(** The body of [if len(rates) >= 2:]. *)
Definition trend_of (rates : list rate_point) : result trend :=
  let sorted := sort_by_time rates in
  oldest ← match head sorted with Some p => Ok (rate p) | None => Raise IndexError end;
  newest ← match last sorted with Some p => Ok (rate p) | None => Raise IndexError end;
  q ← py_truediv (newest - oldest)%float oldest;
  let change_percent := (q * 100)%float in
  Ok {| change_percent := py_round2 change_percent;
        direction := classify change_percent;
        oldest_rate := oldest;
        newest_rate := newest;
        data_points := length rates |}.

Fixpoint trends_loop (trends : list (string * trend))
    (items : list (string * list rate_point)) : result (list (string * trend)) :=
  match items with
  | [] => Ok trends
  | (pair_name, rates) :: rest =>
      if (2 <=? length rates)%nat then
        t ← trend_of rates;
        trends_loop (alist_set pair_name t trends) rest
      else trends_loop trends rest
  end.

Definition get_currency_trends (self : ConversionHistory) (env : environment) (days : Z)
  : result (list (string * trend)) :=
  match history self with
  | [] => Ok []
  | _ =>
      let cutoff_date := (now env - timedelta_days days)%Z in
      let recent_conversions := filter (λ c, in_window cutoff_date c = true) (history self) in
      if (length recent_conversions <? 2)%nat then Ok []
      else
        currency_rates ← group_by_pair [] recent_conversions;
        trends_loop [] currency_rates
  end.

(** ** CurrencyConverter.convert_currency

    From the point where both codes have been read and validated and the
    amount parsed; the result carries the rate and the converted amount
    that are displayed. *)
Definition convert_currency (exchange_service : ExchangeRateService)
    (hist : ConversionHistory) (env : environment)
    (from_currency to_currency : string) (amount : float)
  : M (ConversionHistory * option (float * float)) :=
  try_except
    (if PrimFloat.leb amount 0 then mret (hist, None)
     else
       exchange_rate ← get_exchange_rate exchange_service env from_currency to_currency;
       let converted_amount := (amount * exchange_rate)%float in
       let conversion_data :=
         {| amount := amount;
            from_currency := from_currency;
            to_currency := to_currency;
            exchange_rate := exchange_rate;
            converted_amount := converted_amount;
            timestamp := None;
            readable_time := None |} in
       hist' ← add_conversion hist env conversion_data;
       mret (hist', Some (exchange_rate, converted_amount)))
    any_exception
    (mret (hist, None)).

End WithDatetime.

(** ** The timestamp format written by [isoformat]

    [YYYY-MM-DDTHH:MM:SS], followed by [.ffffff] when the microseconds are
    not zero. Time zero is 1970-01-01T00:00:00. [parse] reads this format
    and no other; the other texts that Python's [fromisoformat] accepts (a
    space for the [T], a date alone, an offset) are not used below. *)

Module Iso8601.

Definition digit_of (c : ascii) : option Z :=
  let n := Z.of_N (N_of_ascii c) in
  if (48 <=? n)%Z && (n <=? 57)%Z then Some (n - 48)%Z else None.

Fixpoint read_digits (n : nat) (acc : Z) (s : string) : option (Z * string) :=
  match n with
  | O => Some (acc, s)
  | S n' =>
      match s with
      | String c rest => d ← digit_of c; read_digits n' (acc * 10 + d)%Z rest
      | EmptyString => None
      end
  end.

Definition expect (c : ascii) (s : string) : option string :=
  match s with
  | String c' rest => if Ascii.eqb c c' then Some rest else None
  | EmptyString => None
  end.

Definition is_leap (y : Z) : bool :=
  ((y mod 4 =? 0) && negb (y mod 100 =? 0) || (y mod 400 =? 0))%Z.

Definition days_in_month (y m : Z) : Z :=
  if (m =? 2)%Z then (if is_leap y then 29 else 28)%Z
  else if ((m =? 4) || (m =? 6) || (m =? 9) || (m =? 11))%Z then 30%Z
  else 31%Z.

(** Days from 1970-01-01 to the given civil date. *)
Definition days_from_civil (y m d : Z) : Z :=
  let y' := (if m <=? 2 then y - 1 else y)%Z in
  let era := (y' / 400)%Z in
  let yoe := (y' - era * 400)%Z in
  let mp := (if 2 <? m then m - 3 else m + 9)%Z in
  let doy := ((153 * mp + 2) / 5 + d - 1)%Z in
  let doe := (yoe * 365 + yoe / 4 - yoe / 100 + doy)%Z in
  (era * 146097 + doe - 719468)%Z.

(** The civil date [(y, m, d)] of a day number. *)
Definition civil_from_days (z : Z) : Z * Z * Z :=
  let z := (z + 719468)%Z in
  let era := (z / 146097)%Z in
  let doe := (z - era * 146097)%Z in
  let yoe := ((doe - doe / 1460 + doe / 36524 - doe / 146096) / 365)%Z in
  let doy := (doe - (365 * yoe + yoe / 4 - yoe / 100))%Z in
  let mp := ((5 * doy + 2) / 153)%Z in
  let d := (doy - (153 * mp + 2) / 5 + 1)%Z in
  let m := (if mp <? 10 then mp + 3 else mp - 9)%Z in
  let y := (yoe + era * 400 + (if m <=? 2 then 1 else 0))%Z in
  (y, m, d).

Definition parse (s : string) : option Z :=
  '(y, s) ← read_digits 4 0 s;
  s ← expect "-" s;
  '(m, s) ← read_digits 2 0 s;
  s ← expect "-" s;
  '(d, s) ← read_digits 2 0 s;
  s ← expect "T" s;
  '(hh, s) ← read_digits 2 0 s;
  s ← expect ":" s;
  '(mm, s) ← read_digits 2 0 s;
  s ← expect ":" s;
  '(ss, s) ← read_digits 2 0 s;
  us ← match s with
       | EmptyString => Some 0%Z
       | _ => s ← expect "." s;
              '(us, s) ← read_digits 6 0 s;
              match s with EmptyString => Some us | _ => None end
       end;
  if ((1 <=? y) && (1 <=? m) && (m <=? 12) && (1 <=? d) && (d <=? days_in_month y m)
      && (hh <? 24) && (mm <? 60) && (ss <? 60))%Z
  then Some (((days_from_civil y m d * 86400 + hh * 3600 + mm * 60 + ss) * 1000000 + us)%Z)
  else None.

Definition digit_char (d : Z) : ascii := ascii_of_N (Z.to_N (48 + d mod 10)).

(** [n] in decimal on [width] digits, zero-padded. *)
Fixpoint pad (width : nat) (n : Z) (tail : string) : string :=
  match width with
  | O => tail
  | S w => pad w (n / 10) (String (digit_char n) tail)
  end.

Definition format_with (sep : ascii) (fraction : bool) (t : Z) : string :=
  let us := (t mod 1000000)%Z in
  let secs := (t / 1000000)%Z in
  let sod := (secs mod 86400)%Z in
  let '(y, m, d) := civil_from_days (secs / 86400) in
  pad 4 y "" +:+ "-" +:+ pad 2 m "" +:+ "-" +:+ pad 2 d "" +:+ String sep ""
    +:+ pad 2 (sod / 3600) "" +:+ ":" +:+ pad 2 (sod / 60 mod 60) "" +:+ ":"
    +:+ pad 2 (sod mod 60) ""
    +:+ (if fraction && negb (us =? 0)%Z then "." +:+ pad 6 us "" else "").

End Iso8601.

Definition canonical_datetime : Datetime :=
  {| fromisoformat := Iso8601.parse;
     isoformat := Iso8601.format_with "T" true;
     strftime_readable := Iso8601.format_with " " false |}.

(** ** Vocabulary of the specification *)

(** The last [n] elements of a list, in order: all of it when it has fewer. *)
Definition last_n {A} (n : nat) (l : list A) : list A :=
  drop (length l - n) l.

(** Sequences of calls on a history object, each in its own environment. *)
Inductive history_op :=
  | OpAdd (conversion_data : conversion)
  | OpClear.

(** The point that the trend analysis keeps of a stored record. *)
Definition point_of (c : conversion) : rate_point :=
  {| rate := exchange_rate c; time := default "" (timestamp c) |}.

(** Ascending order of timestamps, as the sort sees them. *)
Definition time_le (p q : rate_point) : Prop :=
  String.leb (time p) (time q) = true.

Definition nonzero (x : float) : Prop := PrimFloat.eqb x 0 = false.

(** The points of the pair [k] among the records [recent], in their order. *)
Definition points_for (k : string) (recent : list conversion) : list rate_point :=
  map point_of (filter (λ c, pair_key c = k) recent).

(** The keys of [Config.SUPPORTED_CURRENCIES]. *)
Definition supported_codes : list string :=
  [ "USD"; "EUR"; "GBP"; "JPY"; "OMR"; "AUD"; "CAD"; "CHF"; "CNY"; "INR";
    "AED"; "SAR"; "KWD"; "BHD"; "QAR"; "NOK"; "SEK"; "DKK"; "PLN"; "CZK" ].

(** An endpoint attempt that does not reach the [return] of the loop:
    the request raises, the status is not 200, the body is not JSON, or it
    has no 'rates' key. *)
Definition endpoint_fails (o : http_outcome) : bool :=
  match o with
  | HttpRaises => true
  | HttpReturns r =>
      negb (status_code r =? 200)%Z ||
      match body r with
      | BodyObject (Some _) => false
      | _ => true
      end
  end.

(** [table[B] / table[A]] *)
Definition cross_rate (table : RateTable) (A B : string) : result float :=
  fa ← py_getitem table A;
  fb ← py_getitem table B;
  py_truediv fb fa.

(** [math.isclose(a, b, rel_tol=tol)] *)
Definition isclose (tol a b : float) : bool :=
  PrimFloat.leb (PrimFloat.abs (a - b))
    (tol * (if PrimFloat.ltb (PrimFloat.abs a) (PrimFloat.abs b)
            then PrimFloat.abs b else PrimFloat.abs a))%float.

Section Calls.
Context `{Datetime}.

(** The records of the pair [k] whose timestamps fall in the lookback
    window, in the order of the log. *)
Definition pair_records (env : environment) (days : Z) (k : string)
    (h : list conversion) : list conversion :=
  filter (λ c, pair_key c = k)
    (filter (λ c, in_window (now env - timedelta_days days) c = true) h).

(** The lookback window in the words of the specification, to be compared
    with [in_window]: a record is in the window when its timestamp reads as
    a date and that date is at most [days] days before the clock. *)
Definition within_lookback (env : environment) (days : Z) (c : conversion) : bool :=
  match timestamp c ≫= fromisoformat with
  | Some created => bool_decide (now env - created ≤ days * 86400 * 1000000)%Z
  | None => false
  end.

(** The records of the pair [k] that are within the lookback window, in
    the order of the log. *)
Definition window_records (env : environment) (days : Z) (k : string)
    (h : list conversion) : list conversion :=
  filter (λ c, pair_key c = k ∧ within_lookback env days c = true) h.

(** A missing or malformed cache file: no file, a file that is not JSON,
    no timestamp key, or a timestamp that does not parse. *)
Definition cache_file_unusable (f : file cache_dict) : Prop :=
  f = FileMissing ∨ f = FileCorrupt ∨
  ∃ c, f = FileData c ∧
       (cache_timestamp c = None ∨
        ∃ ts, cache_timestamp c = Some ts ∧ fromisoformat ts = None).

Definition apply_op (self : ConversionHistory) (p : environment * history_op)
  : M ConversionHistory :=
  match p.2 with
  | OpAdd conversion_data => add_conversion self p.1 conversion_data
  | OpClear => r ← clear_history self p.1; mret r.1
  end.

Fixpoint run_ops (self : ConversionHistory) (ops : list (environment * history_op))
  : M ConversionHistory :=
  match ops with
  | [] => mret self
  | p :: rest => self' ← apply_op self p; run_ops self' rest
  end.

End Calls.

(** ** Vocabulary of the further properties *)

(** A computation that leaves the history file alone and only adds to
    the trace. *)
Definition lookup_frame {A} (m : M A) : Prop :=
  ∀ w,
    history_file (m w).2 = history_file w ∧
    ∃ evs, trace (m w).2 = trace w ++ evs.

(** A computation whose result does not depend on the world it starts
    from: it reads neither file. *)
Definition disk_blind {A} (m : M A) : Prop :=
  ∀ w w', (m w).1 = (m w').1.

(** Whether the oldest point of a group, in the order of the sort, has
    rate zero. *)
Definition zero_oldest (rates : list rate_point) : bool :=
  match head (sort_by_time rates) with
  | Some p => PrimFloat.eqb (rate p) 0
  | None => false
  end.

(** An endpoint attempt that reaches the [return] of the loop with the
    table [rates]: status 200 and a body with a 'rates' key. *)
Definition endpoint_answers (o : http_outcome) (rates : RateTable) : Prop :=
  o = HttpReturns {| status_code := 200; body := BodyObject (Some rates) |}.

(** Whether one of the three table branches of [get_exchange_rate] is
    taken on the table [t]. *)
Definition table_resolves (t : RateTable) (A B : string) : bool :=
  (String.eqb A "USD" && py_in B t)
  || (String.eqb B "USD" && py_in A t)
  || (py_in A t && py_in B t).

(** What a library contributes: its answer when it is installed, returns
    and the answer is above zero. *)
Definition library_answer (available : bool) (o : lib_outcome) : option float :=
  if available then
    match o with
    | LibReturns r => if PrimFloat.ltb 0 r then Some r else None
    | LibRaises => None
    end
  else None.

(** The value of the last tier on the static table: the quotient of the
    two rates when both codes are quoted and the divisor is not zero, and
    1.0 otherwise. *)
Definition fallback_value (table : RateTable) (A B : string) : float :=
  match table !! A, table !! B with
  | Some fa, Some fb => if PrimFloat.eqb fa 0 then 1 else (fb / fa)
  | _, _ => 1
  end%float.

Section Tiers.
Context `{Datetime}.

(** The part of [get_exchange_rate] after the table branches: the two
    libraries, then the static table. *)
Definition library_tiers (self : ExchangeRateService) (env : environment)
    (from_currency to_currency : string) : M float :=
  r1 ← (if FOREX_AVAILABLE env && bool_decide (is_Some (forex_rates self))
        then library_attempt (EvForexGetRate from_currency to_currency)
               (forex_get_rate env from_currency to_currency)
        else mret None);
  match r1 with
  | Some rate => mret rate
  | None =>
      r2 ← (if CONVERTER_AVAILABLE env && bool_decide (is_Some (lib_converter self))
            then library_attempt (EvLibConvert from_currency to_currency)
                   (cc_convert_one env from_currency to_currency)
            else mret None);
      match r2 with
      | Some rate => mret rate
      | None => _get_fallback_rate self from_currency to_currency
      end
  end.

End Tiers.

(** ** Sample inputs *)

Module Samples.

(** 2024-03-01T12:00:00 *)
Definition noon : Z := 1709294400000000.

(** No network, no optional library, a writable disk. *)
Definition offline (t : Z) : environment :=
  {| now := t;
     disk_writable := true;
     requests_get := λ _, HttpRaises;
     FOREX_AVAILABLE := false;
     CONVERTER_AVAILABLE := false;
     forex_get_rate := λ _ _, LibRaises;
     cc_convert_one := λ _ _, LibRaises |}.

(** As [offline], on a disk that refuses writes. *)
Definition read_only (t : Z) : environment :=
  {| now := t;
     disk_writable := false;
     requests_get := λ _, HttpRaises;
     FOREX_AVAILABLE := false;
     CONVERTER_AVAILABLE := false;
     forex_get_rate := λ _ _, LibRaises;
     cc_convert_one := λ _ _, LibRaises |}.

(** No network, but forex-python installed and answering 0.9 to every pair. *)
Definition offline_with_forex (t : Z) : environment :=
  {| now := t;
     disk_writable := true;
     requests_get := λ _, HttpRaises;
     FOREX_AVAILABLE := true;
     CONVERTER_AVAILABLE := false;
     forex_get_rate := λ _ _, LibReturns 0.9;
     cc_convert_one := λ _ _, LibRaises |}.

Definition empty_world : world :=
  {| rates_cache_file := FileMissing;
     history_file := FileMissing;
     trace := [] |}.

(** The service as [__init__] builds it when no usable cache is on disk. *)
Definition service (forex : bool) (cache : cache_dict) : ExchangeRateService :=
  {| forex_rates := if forex then Some CurrencyRates_new else None;
     lib_converter := None;
     rates_cache := cache;
     api_endpoints := API_ENDPOINTS;
     fallback_rates := FALLBACK_RATES |}.

(** A cache as [_save_cache] writes it. *)
Definition cache_written (rates : RateTable) (ts : string) : cache_dict :=
  {| cache_rates := Some rates; cache_timestamp := Some ts |}.

Definition world_with_cache (c : cache_dict) : world :=
  {| rates_cache_file := FileData c;
     history_file := FileMissing;
     trace := [] |}.

(** A stored record of one unit converted at rate [r]. *)
Definition record (f t : string) (r : float) (ts : string) : conversion :=
  {| amount := 1;
     from_currency := f;
     to_currency := t;
     exchange_rate := r;
     converted_amount := r;
     timestamp := Some ts;
     readable_time := None |}.

(** A conversion as [convert_currency] hands it to [add_conversion]. *)
Definition request (n : nat) : conversion :=
  {| amount := PrimFloat.of_uint63 (Uint63.of_Z (Z.of_nat n));
     from_currency := "USD";
     to_currency := "EUR";
     exchange_rate := 0.8520;
     converted_amount := (PrimFloat.of_uint63 (Uint63.of_Z (Z.of_nat n)) * 0.8520)%float;
     timestamp := None;
     readable_time := None |}.

(** 105 conversions, one second apart, the first at 12:00:01. *)
Definition calls105 : list (environment * conversion) :=
  map (λ n, (offline (noon + timedelta_seconds (Z.of_nat n)), request n)) (seq 1 105).

(** Yesterday's cache with a zero rate for EUR. *)
Definition zero_eur_cache : cache_dict :=
  cache_written (<["EUR" := 0%float]> FALLBACK_RATES) "2024-03-01T11:59:00".

(** Two USD/EUR samples inside the week and one GBP/USD sample. *)
Definition falling_history : ConversionHistory :=
  {| history := [ record "USD" "EUR" 0.85 "2024-03-01T10:00:00";
                  record "GBP" "USD" 1.37 "2024-03-01T10:30:00";
                  record "USD" "EUR" 0.80 "2024-03-01T11:00:00" ] |}.

(** The oldest USD/EUR sample has rate zero. *)
Definition zero_oldest_history : ConversionHistory :=
  {| history := [ record "USD" "EUR" 0 "2024-03-01T10:00:00";
                  record "USD" "EUR" 0.85 "2024-03-01T11:00:00" ] |}.

(** Five records of the current week and two of the year before. Of
    USD/EUR two are in the week, at 0.85 then 0.80, and one is older; of
    GBP/USD one is in the week and one is older; the two of EUR/JPY are in
    the week and the newer has rate zero. *)
Definition windowed_history : ConversionHistory :=
  {| history := [ record "USD" "EUR" 0.70 "2023-03-01T10:00:00";
                  record "GBP" "USD" 1.25 "2023-03-01T10:30:00";
                  record "USD" "EUR" 0.85 "2024-03-01T10:00:00";
                  record "EUR" "JPY" 160.0 "2024-03-01T10:15:00";
                  record "GBP" "USD" 1.37 "2024-03-01T10:30:00";
                  record "USD" "EUR" 0.80 "2024-03-01T11:00:00";
                  record "EUR" "JPY" 0 "2024-03-01T11:30:00" ] |}.

(** Two USD/EUR samples whose change, 1.004 percent, rounds to 1.0. *)
Definition barely_rising_history : ConversionHistory :=
  {| history := [ record "USD" "EUR" 1.0 "2024-03-01T10:00:00";
                  record "USD" "EUR" 1.01004 "2024-03-01T11:00:00" ] |}.

(** Two USD/EUR samples whose change, -1.004 percent, rounds to -1.0. *)
Definition barely_falling_history : ConversionHistory :=
  {| history := [ record "USD" "EUR" 1.0 "2024-03-01T10:00:00";
                  record "USD" "EUR" 0.98996 "2024-03-01T11:00:00" ] |}.

(** Two GBP/USD samples with non-zero rates, beside two USD/EUR samples
    the older of which has rate zero. *)
Definition mixed_history : ConversionHistory :=
  {| history := [ record "GBP" "USD" 1.30 "2024-03-01T09:00:00";
                  record "GBP" "USD" 1.40 "2024-03-01T09:30:00";
                  record "USD" "EUR" 0 "2024-03-01T10:00:00";
                  record "USD" "EUR" 0.85 "2024-03-01T11:00:00" ] |}.

(** Two points of one pair, the newer one first in the log. *)
Definition two_samples (oldest newest : float) : list rate_point :=
  [ {| rate := newest; time := "2024-03-01T11:00:00" |};
    {| rate := oldest; time := "2024-03-01T10:00:00" |} ].

(** The first endpoint is down; the second answers with a table that also
    quotes a code the program does not support. *)
Definition online (t : Z) : environment :=
  {| now := t;
     disk_writable := true;
     requests_get := λ url,
       if String.eqb url "https://api.fixer.io/latest?base=USD"
       then HttpReturns
              {| status_code := 200;
                 body := BodyObject
                   (Some (list_to_map [("USD", 1.0); ("EUR", 0.9); ("XXX", 5.0)]%float)) |}
       else HttpRaises;
     FOREX_AVAILABLE := false;
     CONVERTER_AVAILABLE := false;
     forex_get_rate := λ _ _, LibRaises;
     cc_convert_one := λ _ _, LibRaises |}.

End Samples.

(** ** Further sample inputs *)

Module MoreSamples.

(** A world whose history file holds the empty list. *)
Definition synced_world : world :=
  {| rates_cache_file := FileMissing;
     history_file := FileData [];
     trace := [] |}.

(** An append at noon, a clear one second later, an append after that. *)
Definition three_ops : list (environment * history_op) :=
  [ (Samples.offline Samples.noon, OpAdd (Samples.request 1));
    (Samples.offline (Samples.noon + timedelta_seconds 1), OpClear);
    (Samples.offline (Samples.noon + timedelta_seconds 2), OpAdd (Samples.request 2)) ].

(** Three appends, one second apart. *)
Definition three_calls : list (environment * conversion) :=
  map (λ n, (Samples.offline (Samples.noon + timedelta_seconds (Z.of_nat n)),
             Samples.request n)) (seq 1 3).

(** The table that the second endpoint of [Samples.online] answers. *)
Definition quoted : RateTable :=
  list_to_map [("USD", 1.0); ("EUR", 0.9); ("XXX", 5.0)]%float.

(** A cached table that quotes USD and EUR only. *)
Definition small_cache : cache_dict :=
  Samples.cache_written (list_to_map [("USD", 1.0); ("EUR", 0.9)]%float)
    "2024-03-01T11:59:00".

(** The first endpoint answers with an empty table. *)
Definition empty_answer (t : Z) : environment :=
  {| now := t;
     disk_writable := true;
     requests_get := λ url,
       if String.eqb url "https://api.exchangerate-api.com/v4/latest/USD"
       then HttpReturns {| status_code := 200; body := BodyObject (Some ∅) |}
       else HttpRaises;
     FOREX_AVAILABLE := false;
     CONVERTER_AVAILABLE := false;
     forex_get_rate := λ _ _, LibRaises;
     cc_convert_one := λ _ _, LibRaises |}.

(** [Samples.falling_history] with a record from the year before and a
    record without a timestamp added to it. *)
Definition cluttered_history : ConversionHistory :=
  {| history :=
       [ Samples.record "USD" "EUR" 0.70 "2023-03-01T10:00:00";
         Samples.record "USD" "EUR" 0.85 "2024-03-01T10:00:00";
         {| amount := 1; from_currency := "USD"; to_currency := "EUR";
            exchange_rate := 0; converted_amount := 0;
            timestamp := None; readable_time := None |};
         Samples.record "GBP" "USD" 1.37 "2024-03-01T10:30:00";
         Samples.record "USD" "EUR" 0.80 "2024-03-01T11:00:00" ] |}.

(** A history file of 150 records. *)
Definition long_file : list conversion :=
  replicate 150 (Samples.record "USD" "EUR" 0.85 "2024-03-01T10:00:00").

Definition world_with_history (data : list conversion) : world :=
  {| rates_cache_file := FileMissing;
     history_file := FileData data;
     trace := [] |}.

End MoreSamples.

(** * Properties *)

Ltac run :=
  unfold mbind, mret, M_bind, M_ret, result_bind, result_ret, try_except, emit,
    lift, raise, read_cache_file, write_cache_file, read_history_file,
    write_history_file, any_exception in *.

(** One goal for each supported currency code. *)
Ltac each_code :=
  unfold supported_codes; repeat (apply Forall_cons_2); try apply Forall_nil_2.

Section Properties.
Context `{Datetime}.

(** ** The rate cache on disk *)

(** C7: a cache file whose timestamp reads as the time [T] is returned by
    [_load_cache] whenever the clock is strictly less than 300 seconds past
    [T] (so at T+299s), and the empty dictionary is returned from 300
    seconds on (so at T+301s); the empty dictionary is also returned for
    every missing or malformed cache file. *)
Theorem C7_load_cache_validity_window (env : environment) (w : world)
    (c : cache_dict) (ts : string) (T : Z) :
  rates_cache_file w = FileData c →
  cache_timestamp c = Some ts →
  fromisoformat ts = Some T →
  ((now env - T < timedelta_seconds 300)%Z → (_load_cache env w).1 = Ok c) ∧
  ((timedelta_seconds 300 ≤ now env - T)%Z → (_load_cache env w).1 = Ok empty_dict) ∧
  (now env = (T + timedelta_seconds 299)%Z → (_load_cache env w).1 = Ok c) ∧
  (now env = (T + timedelta_seconds 301)%Z → (_load_cache env w).1 = Ok empty_dict) ∧
  (∀ w', cache_file_unusable (rates_cache_file w') →
         (_load_cache env w').1 = Ok empty_dict).
Proof.
  intros Hfile Hts Hparse.
  assert (Hfresh : (now env - T < timedelta_seconds 300)%Z → (_load_cache env w).1 = Ok c).
  { intros Hlt. unfold _load_cache, datetime_fromisoformat. run. simpl.
    rewrite Hfile, Hts, Hparse. simpl.
    destruct (Z.ltb_spec (now env - T) (timedelta_seconds Config.CACHE_DURATION)) as [_|Hge];
      [reflexivity | unfold Config.CACHE_DURATION in Hge; lia]. }
  assert (Hstale : (timedelta_seconds 300 ≤ now env - T)%Z →
                   (_load_cache env w).1 = Ok empty_dict).
  { intros Hge. unfold _load_cache, datetime_fromisoformat. run. simpl.
    rewrite Hfile, Hts, Hparse. simpl.
    destruct (Z.ltb_spec (now env - T) (timedelta_seconds Config.CACHE_DURATION)) as [Hlt|_];
      [unfold Config.CACHE_DURATION in Hlt; lia | reflexivity]. }
  repeat split.
  - exact Hfresh.
  - exact Hstale.
  - intros Hnow. apply Hfresh. unfold timedelta_seconds. rewrite Hnow.
    unfold timedelta_seconds. lia.
  - intros Hnow. apply Hstale. rewrite Hnow. unfold timedelta_seconds. lia.
  - intros w' Hbad. unfold _load_cache, datetime_fromisoformat. run. simpl.
    destruct Hbad as [-> | [-> | (c' & -> & [Hnone | (ts' & Hts' & Hnp)])]]; simpl.
    + reflexivity.
    + reflexivity.
    + rewrite Hnone. reflexivity.
    + rewrite Hts', Hnp. reflexivity.
Qed.

(** ** Rate resolution *)

(** C8: for every code [A], [get_exchange_rate(A, A)] returns exactly 1.0
    and leaves the world as it found it: nothing is added to the trace of
    cache, network, library and fallback-table lookups, and no file
    changes. *)
Theorem C8_same_currency_rate_is_one (self : ExchangeRateService)
    (env : environment) (A : string) (w : world) :
  get_exchange_rate self env A A w = (Ok 1%float, w).
Proof.
  unfold get_exchange_rate. rewrite String.eqb_refl. reflexivity.
Qed.

(** ** The history log *)

Lemma py_slice_from_neg {A} (n : Z) (l : list A) :
  (0 < n)%Z → py_slice_from (- n) l = last_n (Z.to_nat n) l.
Proof.
  intros Hn. unfold py_slice_from, last_n.
  destruct (Z.ltb_spec (- n) 0) as [_|?]; [|lia].
  f_equal. lia.
Qed.

Lemma last_n_length {A} (n : nat) (l : list A) :
  length (last_n n l) = Nat.min n (length l).
Proof. unfold last_n. rewrite length_drop. lia. Qed.

Lemma last_n_all {A} (n : nat) (l : list A) :
  length l ≤ n → last_n n l = l.
Proof.
  intros Hle. unfold last_n.
  replace (length l - n) with 0 by lia. reflexivity.
Qed.


Lemma last_n_app {A} (n : nat) (l l' : list A) :
  last_n n (last_n n l ++ l') = last_n n (l ++ l').
Proof.
  unfold last_n. rewrite !length_app, length_drop.
  rewrite <- (drop_app_le l l' (length l - n)) by lia.
  rewrite drop_drop. f_equal. lia.
Qed.

(** What [add_conversion] leaves in memory, whatever the disk does. *)
Lemma add_conversion_history (self : ConversionHistory) (env : environment)
    (d : conversion) (w : world) :
  ∃ w', add_conversion self env d w =
          (Ok {| history := last_n 100 (history self ++ [stamp env d]) |}, w').
Proof.
  unfold add_conversion, save_json_file.
  assert (Hkept :
    (if (Config.MAX_HISTORY_ENTRIES <? Z.of_nat (length (history self ++ [stamp env d])))%Z
     then py_slice_from (- Config.MAX_HISTORY_ENTRIES) (history self ++ [stamp env d])
     else history self ++ [stamp env d])
    = last_n 100 (history self ++ [stamp env d])).
  { unfold Config.MAX_HISTORY_ENTRIES.
    destruct (Z.ltb_spec 100 (Z.of_nat (length (history self ++ [stamp env d])))) as [Hlt|Hge].
    - rewrite py_slice_from_neg by lia. reflexivity.
    - symmetry. apply last_n_all. lia. }
  rewrite Hkept. run. simpl.
  destruct (disk_writable env); simpl; eauto.
Qed.




Lemma run_adds_history (calls : list (environment * conversion))
    (self : ConversionHistory) (w : world) :
  length (history self) ≤ 100 →
  ∃ w', run_ops self (map (λ c, (c.1, OpAdd c.2)) calls) w =
          (Ok {| history := last_n 100 (history self ++ map (λ c, stamp c.1 c.2) calls) |},
           w').
Proof.
  revert self w. induction calls as [|[env d] calls IH]; intros self w Hlen; simpl.
  - eexists. rewrite app_nil_r, last_n_all by exact Hlen.
    destruct self; reflexivity.
  - run. unfold apply_op; simpl.
    destruct (add_conversion_history self env d w) as [w1 ->].
    destruct (IH {| history := last_n 100 (history self ++ [stamp env d]) |} w1)
      as [w2 ->].
    { simpl. rewrite last_n_length. lia. }
    eexists. simpl. rewrite last_n_app, <- app_assoc. reflexivity.
Qed.


Lemma get_recent_history_positive (self : ConversionHistory) (limit : Z) :
  (0 < limit)%Z → get_recent_history self limit = last_n (Z.to_nat limit) (history self).
Proof.
  intros Hpos. unfold get_recent_history.
  destruct (history self) as [|c h] eqn:Hh.
  - unfold last_n. rewrite drop_nil. reflexivity.
  - apply py_slice_from_neg. exact Hpos.
Qed.

Lemma get_recent_history_zero (self : ConversionHistory) :
  get_recent_history self 0 = history self.
Proof.
  unfold get_recent_history. destruct (history self); reflexivity.
Qed.

(** C9, at the limit 0: on a log of two records the last 0 records are the
    empty sequence, and [get_recent_history(0)] returns both records
    ([history[-0:]] is [history[0:]]). *)
Theorem C9_recent_history_limit_zero_returns_all :
  let r1 := Samples.record "USD" "EUR" 0.85 "2024-03-01T12:00:00" in
  let r2 := Samples.record "USD" "EUR" 0.80 "2024-03-02T12:00:00" in
  get_recent_history {| history := [r1; r2] |} 0 = [r1; r2] ∧
  last_n 0 [r1; r2] = [].
Proof. split; reflexivity. Qed.

(** C10: when the save fails, [clear_history] returns [False], the history
    file keeps its content, and the log in memory is empty all the same:
    [get_recent_history] then returns the empty sequence for every limit. *)
Theorem C10_clear_history_empties_memory_on_failed_save
    (self : ConversionHistory) (env : environment) (w : world) :
  disk_writable env = false →
  ∃ self' w',
    clear_history self env w = (Ok (self', false), w') ∧
    history self' = [] ∧
    history_file w' = history_file w ∧
    ∀ limit, get_recent_history self' limit = [].
Proof.
  intros Hdisk. unfold clear_history, save_json_file. run. simpl.
  rewrite Hdisk. simpl.
  eexists _, _. split; [reflexivity|]. repeat split.
Qed.

(** ** Trend analysis *)

Lemma ascii_compare_lt_trans (a b c : ascii) :
  Ascii.compare a b = Lt → Ascii.compare b c = Lt → Ascii.compare a c = Lt.
Proof.
  unfold Ascii.compare. rewrite !N.compare_lt_iff. apply N.lt_trans.
Qed.

Lemma string_compare_trans (s1 s2 s3 : string) :
  String.compare s1 s2 ≠ Gt → String.compare s2 s3 ≠ Gt → String.compare s1 s3 ≠ Gt.
Proof.
  revert s2 s3. induction s1 as [|c1 s1 IH]; intros [|c2 s2] [|c3 s3]; simpl;
    try congruence.
  destruct (Ascii.compare c1 c2) eqn:H12; [| |congruence].
  - apply Ascii.compare_eq_iff in H12 as ->.
    destruct (Ascii.compare c2 c3) eqn:H23; [apply IH|congruence|congruence].
  - destruct (Ascii.compare c2 c3) eqn:H23; [| |congruence].
    + apply Ascii.compare_eq_iff in H23 as <-. rewrite H12. congruence.
    + rewrite (ascii_compare_lt_trans _ _ _ H12 H23). congruence.
Qed.

Global Instance time_le_trans : Transitive time_le.
Proof.
  intros p q r. unfold time_le, String.leb. intros Hpq Hqr.
  pose proof (string_compare_trans (time p) (time q) (time r)) as Ht.
  destruct (String.compare (time p) (time q)), (String.compare (time q) (time r)),
    (String.compare (time p) (time r));
    try reflexivity; try discriminate; exfalso; apply Ht; congruence.
Qed.

Lemma insert_by_time_perm (x : rate_point) (l : list rate_point) :
  insert_by_time x l ≡ₚ x :: l.
Proof.
  induction l as [|y ys IH]; simpl; [reflexivity|].
  destruct (String.leb (time x) (time y)); [reflexivity|].
  rewrite IH. apply Permutation_swap.
Qed.

Lemma sort_by_time_perm (l : list rate_point) : sort_by_time l ≡ₚ l.
Proof.
  induction l as [|x xs IH]; simpl; [reflexivity|].
  rewrite insert_by_time_perm, IH. reflexivity.
Qed.

Lemma insert_by_time_sorted (x : rate_point) (l : list rate_point) :
  Sorted time_le l → Sorted time_le (insert_by_time x l).
Proof.
  induction l as [|y ys IH]; intros Hs; simpl.
  - repeat constructor.
  - destruct (String.leb (time x) (time y)) eqn:Hxy.
    + constructor; [exact Hs | constructor; exact Hxy].
    + assert (Hyx : time_le y x).
      { destruct (String.leb_total (time x) (time y)) as [Hc|Hc]; [congruence|exact Hc]. }
      apply Sorted_inv in Hs as [Hs Hhd].
      constructor; [apply IH; exact Hs|].
      destruct ys as [|z zs]; simpl.
      * constructor. exact Hyx.
      * destruct (String.leb (time x) (time z)); constructor; [exact Hyx|].
        apply HdRel_inv in Hhd. exact Hhd.
Qed.

Lemma sort_by_time_sorted (l : list rate_point) :
  StronglySorted time_le (sort_by_time l).
Proof.
  apply Sorted_StronglySorted; [apply _|].
  induction l as [|x xs IH]; simpl; [constructor|].
  apply insert_by_time_sorted. exact IH.
Qed.

(** *** Dictionaries in insertion order *)

Lemma alist_lookup_set {V} (k k' : string) (v : V) (d : list (string * V)) :
  alist_lookup k (alist_set k' v d) =
    if String.eqb k k' then Some v else alist_lookup k d.
Proof.
  induction d as [|[k0 v0] d IH]; simpl.
  - reflexivity.
  - destruct (String.eqb_spec k' k0) as [->|Hne]; simpl.
    + destruct (String.eqb k k0); reflexivity.
    + rewrite IH. destruct (String.eqb_spec k k0) as [->|Hne'].
      * destruct (String.eqb_spec k0 k'); congruence.
      * reflexivity.
Qed.

Lemma alist_lookup_None {V} (k : string) (d : list (string * V)) :
  k ∉ d.*1 → alist_lookup k d = None.
Proof.
  induction d as [|[k0 v0] d IH]; simpl; [reflexivity|].
  intros Hnotin. rewrite not_elem_of_cons in Hnotin. destruct Hnotin as [Hne Hnotin].
  destruct (String.eqb_spec k k0); [congruence | apply IH; exact Hnotin].
Qed.

Lemma alist_lookup_elem_of {V} (k : string) (v : V) (d : list (string * V)) :
  NoDup d.*1 → (k, v) ∈ d → alist_lookup k d = Some v.
Proof.
  induction d as [|[k0 v0] d IH]; simpl; intros Hnd Hin.
  - inversion Hin.
  - apply NoDup_cons in Hnd as [Hk0 Hnd].
    apply elem_of_cons in Hin as [Heq|Hin].
    + injection Heq as -> ->. rewrite String.eqb_refl. reflexivity.
    + destruct (String.eqb_spec k k0) as [->|Hne]; [|apply IH; assumption].
      exfalso. apply Hk0. apply list_elem_of_fmap. exists (k0, v). split; [reflexivity|exact Hin].
Qed.

Lemma alist_set_keys {V} (k : string) (v : V) (d : list (string * V)) :
  NoDup d.*1 → NoDup (alist_set k v d).*1 ∧ ∀ k', k' ∈ (alist_set k v d).*1 → k' = k ∨ k' ∈ d.*1.
Proof.
  induction d as [|[k0 v0] d IH]; simpl; intros Hnd.
  - split; [apply NoDup_singleton|]. intros k' Hin. apply list_elem_of_singleton in Hin. auto.
  - apply NoDup_cons in Hnd as [Hk0 Hnd]. destruct (IH Hnd) as [IHnd IHin].
    destruct (String.eqb_spec k k0) as [->|Hne]; simpl.
    + split; [apply NoDup_cons; auto|]. intros k' Hin; auto.
    + split.
      * apply NoDup_cons. split; [|exact IHnd].
        intros Hin. destruct (IHin _ Hin); [congruence|contradiction].
      * intros k' Hin. apply elem_of_cons in Hin as [->|Hin].
        -- right. apply elem_of_cons. auto.
        -- destruct (IHin _ Hin); [auto|]. right. apply elem_of_cons. auto.
Qed.

Lemma points_for_cons (k : string) (c : conversion) (recent : list conversion) :
  points_for k (c :: recent) =
    if decide (pair_key c = k) then point_of c :: points_for k recent
    else points_for k recent.
Proof.
  unfold points_for. rewrite filter_cons. destruct (decide (pair_key c = k)); reflexivity.
Qed.

Lemma group_by_pair_lookup (recent : list conversion)
    (d : list (string * list rate_point)) :
  Forall (λ c, is_Some (timestamp c)) recent →
  NoDup d.*1 →
  ∃ g, group_by_pair d recent = Ok g ∧ NoDup g.*1 ∧
    ∀ k, alist_lookup k g =
      match alist_lookup k d, points_for k recent with
      | Some xs, ps => Some (xs ++ ps)
      | None, [] => None
      | None, ps => Some ps
      end.
Proof.
  revert d. induction recent as [|c rest IH]; intros d Hts Hnd; simpl.
  - exists d. split; [reflexivity|]. split; [exact Hnd|].
    intros k. unfold points_for. simpl.
    destruct (alist_lookup k d); [rewrite app_nil_r|]; reflexivity.
  - apply Forall_cons in Hts as [[ts Hc] Hts].
    unfold group_step. rewrite Hc. run. simpl.
    assert (Hpt : {| rate := exchange_rate c; time := ts |} = point_of c).
    { unfold point_of. rewrite Hc. reflexivity. }
    rewrite Hpt.
    set (d' := alist_append (pair_key c) (point_of c) d).
    assert (Hd' : NoDup d'.*1 ∧ ∀ k, alist_lookup k d' =
              if String.eqb k (pair_key c)
              then Some (default [] (alist_lookup (pair_key c) d) ++ [point_of c])
              else alist_lookup k d).
    { unfold d', alist_append.
      destruct (alist_lookup (pair_key c) d) as [xs|] eqn:Hlk.
      - split; [exact (proj1 (alist_set_keys _ _ _ Hnd))|].
        intros k. apply alist_lookup_set.
      - split; [exact (proj1 (alist_set_keys _ _ _ Hnd))|].
        intros k. apply alist_lookup_set. }
    destruct Hd' as [Hnd' Hlk'].
    destruct (IH d' Hts Hnd') as (g & Hg & Hndg & Hlkg).
    exists g. split; [exact Hg|]. split; [exact Hndg|].
    intros k. rewrite Hlkg, Hlk', points_for_cons.
    destruct (String.eqb_spec k (pair_key c)) as [->|Hne].
    + rewrite decide_True by reflexivity.
      destruct (alist_lookup (pair_key c) d) as [xs|]; simpl.
      * rewrite <- app_assoc. reflexivity.
      * reflexivity.
    + rewrite decide_False by congruence. reflexivity.
Qed.

(** The trend that the loop stores for a group it keeps. *)
Lemma trends_loop_lookup (items : list (string * list rate_point))
    (acc : list (string * trend)) :
  NoDup items.*1 →
  (∀ k rates, (k, rates) ∈ items → 2 ≤ length rates → is_ok (trend_of rates) = true) →
  ∃ res, trends_loop acc items = Ok res ∧
    ∀ k, alist_lookup k res =
      match alist_lookup k items with
      | Some rates =>
          if (2 <=? length rates)%nat
          then match trend_of rates with Ok t => Some t | Raise _ => None end
          else alist_lookup k acc
      | None => alist_lookup k acc
      end.
Proof.
  revert acc. induction items as [|[k0 r0] items IH]; intros acc Hnd Hok;
    cbn [trends_loop alist_lookup].
  - exists acc. split; reflexivity.
  - rewrite fmap_cons in Hnd. apply NoDup_cons in Hnd as [Hk0 Hnd]. simpl in Hk0.
    assert (Hok' : ∀ k rates, (k, rates) ∈ items → 2 ≤ length rates →
                              is_ok (trend_of rates) = true).
    { intros k rates Hin. apply (Hok k). apply elem_of_cons. auto. }
    destruct (2 <=? length r0)%nat eqn:Hleb.
    + apply Nat.leb_le in Hleb as Hlen.
      pose proof (Hok k0 r0 ltac:(apply elem_of_cons; auto) Hlen) as Ht.
      destruct (trend_of r0) as [t|e] eqn:Htrend; [|discriminate].
      run. cbn beta iota.
      destruct (IH (alist_set k0 t acc) Hnd Hok') as (res & Hres & Hlk).
      exists res. split; [exact Hres|].
      intros k. rewrite Hlk, alist_lookup_set.
      destruct (String.eqb_spec k k0) as [->|Hne].
      * rewrite (alist_lookup_None k0 items Hk0), Hleb, Htrend. reflexivity.
      * reflexivity.
    + destruct (IH acc Hnd Hok') as (res & Hres & Hlk).
      exists res. split; [exact Hres|].
      intros k. rewrite Hlk. destruct (String.eqb_spec k k0) as [->|Hne].
      * rewrite (alist_lookup_None k0 items Hk0), Hleb. reflexivity.
      * reflexivity.
Qed.

Lemma trend_of_oldest_nonzero (rates : list rate_point) :
  2 ≤ length rates →
  zero_oldest rates = false →
  ∃ old new q,
    head (sort_by_time rates) = Some old ∧
    last (sort_by_time rates) = Some new ∧
    py_truediv (rate new - rate old)%float (rate old) = Ok q ∧
    trend_of rates =
      Ok {| change_percent := py_round2 (q * 100)%float;
            direction := classify (q * 100)%float;
            oldest_rate := rate old;
            newest_rate := rate new;
            data_points := length rates |}.
Proof.
  intros Hlen Hnz. unfold zero_oldest in Hnz.
  pose proof (sort_by_time_perm rates) as Hperm.
  assert (Hlen' : length (sort_by_time rates) = length rates)
    by (apply Permutation_length; exact Hperm).
  destruct (sort_by_time rates) as [|old tl] eqn:Hsorted; [simpl in Hlen'; lia|].
  destruct (last (old :: tl)) as [new|] eqn:Hlast.
  2:{ apply last_None in Hlast. discriminate. }
  cbn [head] in Hnz.
  exists old, new, ((rate new - rate old) / rate old)%float.
  unfold trend_of. rewrite Hsorted, Hlast. simpl.
  unfold py_truediv. rewrite Hnz.
  repeat split; reflexivity.
Qed.


(** The two thresholds exclude each other on every float. *)
Lemma below_minus_one_not_above_one (x : float) :
  PrimFloat.ltb x (-1) = true → PrimFloat.ltb 1 x = false.
Proof.
  rewrite !ltb_spec.
  change (Prim2SF 1) with (S754_finite false 4503599627370496 (-52)).
  change (Prim2SF (-1)) with (S754_finite true 4503599627370496 (-52)).
  destruct (Prim2SF x) as [[]|[]| |[] m e]; simpl; intros Hlt;
    first [reflexivity | discriminate].
Qed.

Lemma classify_spec (cp : float) :
  (classify cp = "rising" ↔ PrimFloat.ltb 1 cp = true) ∧
  (classify cp = "falling" ↔ PrimFloat.ltb cp (-1) = true) ∧
  (classify cp = "stable" ↔ PrimFloat.ltb 1 cp = false ∧ PrimFloat.ltb cp (-1) = false).
Proof.
  unfold classify.
  pose proof (below_minus_one_not_above_one cp) as Hex.
  destruct (PrimFloat.ltb 1 cp), (PrimFloat.ltb cp (-1));
    repeat split; intros; try reflexivity; try discriminate;
    try (destruct_and?; discriminate); specialize (Hex eq_refl); discriminate.
Qed.

Lemma in_window_timestamp (cutoff : Z) (c : conversion) :
  in_window cutoff c = true → is_Some (timestamp c).
Proof.
  unfold in_window. destruct (timestamp c); [eauto | discriminate].
Qed.

(** The window of the specification is the window of the code. *)
Lemma within_lookback_in_window (env : environment) (days : Z) (c : conversion) :
  within_lookback env days c = in_window (now env - timedelta_days days) c.
Proof.
  unfold within_lookback, in_window, timedelta_days.
  destruct (timestamp c) as [ts|]; simpl; [|reflexivity].
  destruct (fromisoformat ts) as [created|]; simpl; [|reflexivity].
  destruct (Z.leb_spec (now env - days * 86400 * 1000000) created).
  - apply bool_decide_eq_true. lia.
  - apply bool_decide_eq_false. lia.
Qed.

Lemma window_records_pair_records (env : environment) (days : Z) (k : string)
    (h : list conversion) :
  window_records env days k h = pair_records env days k h.
Proof.
  unfold window_records, pair_records. rewrite list_filter_filter.
  apply list_filter_iff. intros c. rewrite within_lookback_in_window. reflexivity.
Qed.

(** A condition on every pair follows from the condition on the pair of
    every record. *)
Lemma window_records_by_record (env : environment) (days : Z) (h : list conversion)
    (P : list conversion → Prop) :
  Forall (λ c, P (window_records env days (pair_key c) h)) h →
  ∀ k, 2 ≤ length (window_records env days k h) → P (window_records env days k h).
Proof.
  intros Hall k Hlen.
  destruct (window_records env days k h) as [|c grp] eqn:Hgrp; [simpl in Hlen; lia|].
  assert (Hc : c ∈ window_records env days k h) by (rewrite Hgrp; apply elem_of_cons; auto).
  apply list_elem_of_filter in Hc as [[Hk _] Hc].
  rewrite Forall_forall in Hall. specialize (Hall c Hc).
  rewrite Hk, Hgrp in Hall. exact Hall.
Qed.

(** C4, as the code has it: on a log in which no pair with at least 2
    records within the lookback window has a zero rate in the oldest of
    them, [get_currency_trends] returns a mapping in which a pair with fewer
    than 2 records within the window is absent, and a pair with at least 2
    has the summary computed from those records put in ascending order of
    timestamp: oldest and newest are the first and last of that order,
    [change_percent] is [(newest - oldest) / oldest * 100] rounded to 2
    decimals, and the direction is "rising" iff the change before rounding
    is above 1, "falling" iff it is below -1, and "stable" otherwise. The
    window is the one of the specification: the records whose timestamp is
    a date at most [days] days before the clock. *)
Theorem C4_currency_trends_per_pair (self : ConversionHistory)
    (env : environment) (days : Z) :
  (∀ k, 2 ≤ length (window_records env days k (history self)) →
        zero_oldest (map point_of (window_records env days k (history self))) = false) →
  ∃ trends,
    get_currency_trends self env days = Ok trends ∧
    ∀ k,
      let grp := window_records env days k (history self) in
      (length grp < 2 → alist_lookup k trends = None) ∧
      (2 ≤ length grp →
       ∃ sorted old new q dir,
         sorted ≡ₚ map point_of grp ∧
         StronglySorted time_le sorted ∧
         head sorted = Some old ∧
         last sorted = Some new ∧
         py_truediv (rate new - rate old)%float (rate old) = Ok q ∧
         alist_lookup k trends =
           Some {| change_percent := py_round2 (q * 100)%float;
                   direction := dir;
                   oldest_rate := rate old;
                   newest_rate := rate new;
                   data_points := length grp |} ∧
         (dir = "rising" ↔ PrimFloat.ltb 1 (q * 100)%float = true) ∧
         (dir = "falling" ↔ PrimFloat.ltb (q * 100)%float (-1) = true) ∧
         (dir = "stable" ↔ PrimFloat.ltb 1 (q * 100)%float = false ∧
                           PrimFloat.ltb (q * 100)%float (-1) = false)).
Proof.
  intros Hnz.
  set (cutoff := (now env - timedelta_days days)%Z).
  set (recent := filter (λ c, in_window cutoff c = true) (history self)).
  assert (Hwin : ∀ k, window_records env days k (history self)
                      = filter (λ c, pair_key c = k) recent).
  { intros k. rewrite window_records_pair_records. reflexivity. }
  assert (Hdef : get_currency_trends self env days =
            if (length recent <? 2)%nat then Ok []
            else currency_rates ← group_by_pair [] recent;
                 trends_loop [] currency_rates).
  { unfold get_currency_trends. subst recent cutoff.
    destruct (history self); reflexivity. }
  rewrite Hdef. clear Hdef.
  assert (Hpts : ∀ k, length (filter (λ c, pair_key c = k) recent)
                      = length (points_for k recent)).
  { intros k. unfold points_for. rewrite length_map. reflexivity. }
  assert (Hshort : length recent < 2 →
    ∀ k, (length (filter (λ c, pair_key c = k) recent) < 2 →
          alist_lookup k (@nil (string * trend)) = None) ∧
         (2 ≤ length (filter (λ c, pair_key c = k) recent) → False)).
  { intros Hlt k. split; [reflexivity|].
    pose proof (length_filter (λ c, pair_key c = k) recent). lia. }
  destruct (length recent <? 2)%nat eqn:Hlen2.
  { apply Nat.ltb_lt in Hlen2. exists []. split; [reflexivity|]. intros k.
    cbv zeta. rewrite (Hwin k).
    destruct (Hshort Hlen2 k) as [Ha Hb].
    split; [exact Ha | intros Hge; destruct (Hb Hge)]. }
  clear Hshort Hlen2.
  assert (Hts : Forall (λ c, is_Some (timestamp c)) recent).
  { apply Forall_forall. intros c Hc. subst recent.
    apply list_elem_of_filter in Hc as [Hc _]. eapply in_window_timestamp, Hc. }
  assert (Hrates : ∀ k, 2 ≤ length (points_for k recent) →
                        zero_oldest (points_for k recent) = false).
  { intros k Hlen. rewrite <- Hpts, <- (Hwin k) in Hlen.
    pose proof (Hnz k Hlen) as Hz. rewrite (Hwin k) in Hz. exact Hz. }
  destruct (group_by_pair_lookup recent [] Hts (NoDup_nil_2)) as (g & Hg & Hndg & Hlkg).
  rewrite Hg. run. cbn beta iota.
  assert (Hok : ∀ k rates, (k, rates) ∈ g → 2 ≤ length rates →
                           is_ok (trend_of rates) = true).
  { intros k rates Hin Hlen.
    pose proof (alist_lookup_elem_of k rates g Hndg Hin) as Hlk.
    rewrite Hlkg in Hlk. cbn [alist_lookup] in Hlk.
    assert (rates = points_for k recent) as ->.
    { destruct (points_for k recent); [discriminate | congruence]. }
    destruct (trend_of_oldest_nonzero _ Hlen (Hrates k Hlen))
      as (old & new & q & _ & _ & _ & ->).
    reflexivity. }
  destruct (trends_loop_lookup g [] Hndg Hok) as (res & Hres & Hlk).
  exists res. split; [exact Hres|].
  intros k. cbv zeta. rewrite (Hwin k), Hpts, Hlk, Hlkg. cbn [alist_lookup].
  split.
  - intros Hlt. destruct (points_for k recent) as [|p ps] eqn:Hp; [reflexivity|].
    destruct (2 <=? length (p :: ps))%nat eqn:Hleb; [|reflexivity].
    apply Nat.leb_le in Hleb. lia.
  - intros Hge.
    destruct (trend_of_oldest_nonzero _ Hge (Hrates k Hge))
      as (old & new & q & Hhd & Hla & Hq & Ht).
    destruct (classify_spec (q * 100)%float) as (Hr & Hf & Hs).
    exists (sort_by_time (points_for k recent)), old, new, q, (classify (q * 100)%float).
    split; [apply sort_by_time_perm|].
    split; [apply sort_by_time_sorted|].
    split; [exact Hhd|]. split; [exact Hla|]. split; [exact Hq|].
    split; [|split; [exact Hr | split; [exact Hf | exact Hs]]].
    destruct (points_for k recent) as [|p ps] eqn:Hp; [simpl in Hge; lia|].
    apply Nat.leb_le in Hge as Hleb. rewrite Hleb, Ht. reflexivity.
Qed.

(** The final fallback never raises, whatever the table holds. *)
Lemma get_fallback_rate_total (self : ExchangeRateService) (A B : string) (w : world) :
  ∃ r, _get_fallback_rate self A B w = (Ok r, add_trace [EvFallbackLookup] w).
Proof.
  unfold _get_fallback_rate, py_in, py_getitem, py_truediv. run. simpl.
  destruct (fallback_rates self !! A) as [fa|]; simpl;
    [destruct (fallback_rates self !! B) as [fb|]; simpl|]; eauto.
  destruct (PrimFloat.eqb fa 0); simpl; eauto.
Qed.

(** ... and answers 1.0 as soon as one of the two codes is not in the table. *)
Lemma get_fallback_rate_absent (self : ExchangeRateService) (A B : string) (w : world) :
  fallback_rates self !! A = None ∨ fallback_rates self !! B = None →
  _get_fallback_rate self A B w = (Ok 1%float, add_trace [EvFallbackLookup] w).
Proof.
  unfold _get_fallback_rate, py_in, py_getitem. run. simpl.
  intros [HA|HB].
  - rewrite HA. reflexivity.
  - rewrite HB. destruct (fallback_rates self !! A); reflexivity.
Qed.

(** *** What can escape from [get_exchange_rate] *)

Lemma py_in_getitem {V} (k : string) (d : gmap string V) :
  py_in k d = true → ∃ v, d !! k = Some v ∧ py_getitem d k = Ok v.
Proof.
  unfold py_in, py_getitem. intros Hin. apply bool_decide_eq_true in Hin as [v Hv].
  exists v. rewrite Hv. split; reflexivity.
Qed.

Lemma fetch_one_total (env : environment) (url : string) (w : world) :
  ∃ r, fetch_one env url w = (Ok r, add_trace [EvHttpGet url] w).
Proof.
  unfold fetch_one. run. simpl.
  destruct (requests_get env url) as [|[status [|[rates|]]]]; simpl; eauto;
    destruct (status =? 200)%Z; simpl; eauto.
Qed.

Lemma fetch_loop_total (env : environment) (urls : list string) (w : world) :
  ∃ r w', fetch_loop env urls w = (Ok r, w').
Proof.
  revert w. induction urls as [|u urls IH]; intros w; simpl; [eauto|].
  unfold mbind, M_bind. destruct (fetch_one_total env u w) as [[rates|] ->]; eauto.
Qed.

Lemma save_cache_total (env : environment) (rates : RateTable) (w : world) :
  ∃ w', _save_cache env rates w = (Ok tt, w').
Proof.
  unfold _save_cache. run. simpl. destruct (disk_writable env); simpl; eauto.
Qed.

Lemma get_all_rates_total (self : ExchangeRateService) (env : environment)
    (base_currency : string) (w : world) :
  ∃ table w', get_all_rates self env base_currency w = (Ok table, w').
Proof.
  unfold get_all_rates, _fetch_rates_from_api, emit. unfold mbind, M_bind.
  destruct (cache_rates (rates_cache self)) as [cached|];
    [destruct (String.eqb base_currency "USD"); [unfold mret, M_ret; eauto|]|];
    (destruct (fetch_loop_total env (api_endpoints self) (add_trace [EvCacheLookup] w))
       as (rates & w1 & ->);
     destruct rates as [r0|]; [|unfold mret, M_ret; eauto];
     destruct (rates_truthy (Some r0)); [|unfold mret, M_ret; eauto];
     destruct (save_cache_total env (filter (λ kv, supported kv.1 = true) r0) w1)
       as [w2 ->];
     unfold mret, M_ret; eauto).
Qed.

Lemma library_attempt_total (ev : event) (o : lib_outcome) (w : world) :
  ∃ r, library_attempt ev o w = (Ok r, add_trace [ev] w).
Proof.
  unfold library_attempt. run. simpl.
  destruct o as [|rate]; simpl; eauto. destruct (usable_rate rate); eauto.
Qed.

Lemma py_truediv_cases (x y : float) :
  (∃ q, py_truediv x y = Ok q) ∨ py_truediv x y = Raise ZeroDivisionError.
Proof. unfold py_truediv. destruct (PrimFloat.eqb y 0); eauto. Qed.

(** Nothing but a division by a zero rate escapes from
    [get_exchange_rate], and it returns in every other case. *)
Lemma get_exchange_rate_raises_only_zero_division (self : ExchangeRateService)
    (env : environment) (A B : string) (w : world) :
  match (get_exchange_rate self env A B w).1 with
  | Ok _ => True
  | Raise e => e = ZeroDivisionError
  end.
Proof.
  unfold get_exchange_rate.
  destruct (String.eqb A B); [exact I|].
  unfold mbind at 1. unfold M_bind at 1.
  destruct (get_all_rates_total self env "USD" w) as (table & w1 & ->).
  destruct (String.eqb A "USD" && py_in B table) eqn:H1.
  { apply andb_prop in H1 as [_ HB].
    destruct (py_in_getitem _ _ HB) as (v & _ & Hv).
    unfold lift. simpl. rewrite Hv. exact I. }
  destruct (String.eqb B "USD" && py_in A table) eqn:H2.
  { apply andb_prop in H2 as [_ HA].
    destruct (py_in_getitem _ _ HA) as (v & _ & Hv). run. rewrite Hv.
    destruct (py_truediv_cases 1 v) as [[q ->] | ->]; simpl; trivial. }
  destruct (py_in A table && py_in B table) eqn:H3.
  { apply andb_prop in H3 as [HA HB].
    destruct (py_in_getitem _ _ HA) as (va & _ & Hva).
    destruct (py_in_getitem _ _ HB) as (vb & _ & Hvb). run. rewrite Hva, Hvb.
    destruct (py_truediv_cases vb va) as [[q ->] | ->]; simpl; trivial. }
  unfold mbind, M_bind.
  destruct (FOREX_AVAILABLE env && bool_decide (is_Some (forex_rates self)));
    [destruct (library_attempt_total (EvForexGetRate A B) (forex_get_rate env A B) w1)
       as [[rate|] ->]; [exact I|]
    | unfold mret at 1; unfold M_ret at 1];
    (destruct (CONVERTER_AVAILABLE env && bool_decide (is_Some (lib_converter self)));
     [match goal with
      | |- context [library_attempt ?ev ?o ?w2] =>
          destruct (library_attempt_total ev o w2) as [[rate|] ->]; [exact I|]
      end
     | unfold mret at 1; unfold M_ret at 1];
     match goal with
     | |- context [_get_fallback_rate self A B ?w2] =>
         destruct (get_fallback_rate_total self A B w2) as [r ->]; exact I
     end).
Qed.

(** A zero rate in the cached table is enough: the division is not guarded. *)
Lemma cached_zero_rate_raises (self : ExchangeRateService) (env : environment)
    (A : string) (table : RateTable) (z : float) (w : world) :
  cache_rates (rates_cache self) = Some table →
  A ≠ "USD" →
  table !! A = Some z →
  PrimFloat.eqb z 0 = true →
  get_exchange_rate self env A "USD" w =
    (Raise ZeroDivisionError, add_trace [EvCacheLookup] w).
Proof.
  intros Hcache HA Hz Hzero.
  assert (Hin : py_in A table = true)
    by (unfold py_in; apply bool_decide_eq_true_2; eauto).
  assert (Hget : py_getitem table A = Ok z)
    by (unfold py_getitem; rewrite Hz; reflexivity).
  assert (Hdiv : py_truediv 1 z = Raise ZeroDivisionError)
    by (unfold py_truediv; rewrite Hzero; reflexivity).
  apply String.eqb_neq in HA.
  unfold get_exchange_rate, get_all_rates. rewrite HA, Hcache. run.
  cbn [String.eqb Ascii.eqb Bool.eqb andb]. cbn beta iota.
  rewrite Hin, Hget, Hdiv. reflexivity.
Qed.

(** *** Resolution without a cache and without the network *)

Lemma add_trace_add_trace (l1 l2 : list event) (w : world) :
  add_trace l2 (add_trace l1 w) = add_trace (l1 ++ l2) w.
Proof. unfold add_trace. simpl. rewrite app_assoc. reflexivity. Qed.

Lemma add_trace_nil (w : world) : add_trace [] w = w.
Proof. destruct w. unfold add_trace. simpl. rewrite app_nil_r. reflexivity. Qed.

Lemma fetch_one_fails (env : environment) (url : string) (w : world) :
  endpoint_fails (requests_get env url) = true →
  fetch_one env url w = (Ok None, add_trace [EvHttpGet url] w).
Proof.
  unfold fetch_one, endpoint_fails. run. simpl.
  destruct (requests_get env url) as [|[status [|[rates|]]]]; simpl;
    try reflexivity; destruct (status =? 200)%Z; simpl; intros; try reflexivity;
    discriminate.
Qed.

Lemma fetch_loop_all_fail (env : environment) (urls : list string) (w : world) :
  Forall (λ u, endpoint_fails (requests_get env u) = true) urls →
  fetch_loop env urls w = (Ok None, add_trace (map EvHttpGet urls) w).
Proof.
  revert w. induction urls as [|u urls IH]; intros w Hall; simpl.
  - rewrite add_trace_nil. reflexivity.
  - apply Forall_cons in Hall as [Hu Hall].
    unfold mbind, M_bind. rewrite (fetch_one_fails env u w Hu), (IH _ Hall).
    rewrite add_trace_add_trace. reflexivity.
Qed.

Lemma get_all_rates_offline (self : ExchangeRateService) (env : environment)
    (w : world) :
  cache_rates (rates_cache self) = None →
  Forall (λ u, endpoint_fails (requests_get env u) = true) (api_endpoints self) →
  get_all_rates self env "USD" w =
    (Ok (fallback_rates self),
     add_trace (EvCacheLookup :: map EvHttpGet (api_endpoints self) ++ [EvFallbackLookup]) w).
Proof.
  intros Hcache Hall. unfold get_all_rates, _fetch_rates_from_api.
  rewrite Hcache. unfold mbind, M_bind, emit.
  rewrite (fetch_loop_all_fail env _ _ Hall). simpl.
  rewrite !add_trace_add_trace. reflexivity.
Qed.

Lemma supported_codes_keys : supported_codes = Config.SUPPORTED_CURRENCIES.*1.
Proof. reflexivity. Qed.

Lemma supported_cases (P : string → Prop) :
  Forall P supported_codes → ∀ A, supported A = true → P A.
Proof.
  intros Hall A HA. unfold supported in HA. apply bool_decide_eq_true in HA.
  rewrite Forall_forall in Hall. apply Hall, HA.
Qed.

(** With no cached table and no endpoint answering, a pair of supported
    codes is resolved from the static table, and the only accesses are the
    cache lookup, one request per endpoint and the fallback lookup. *)
Lemma offline_rate (self : ExchangeRateService) (env : environment) (w : world)
    (A B : string) :
  cache_rates (rates_cache self) = None →
  fallback_rates self = FALLBACK_RATES →
  Forall (λ u, endpoint_fails (requests_get env u) = true) (api_endpoints self) →
  supported A = true →
  supported B = true →
  is_ok (cross_rate FALLBACK_RATES A B) = true ∧
  get_exchange_rate self env A B w =
    (cross_rate FALLBACK_RATES A B,
     if String.eqb A B then w
     else add_trace (EvCacheLookup :: map EvHttpGet (api_endpoints self)
                       ++ [EvFallbackLookup]) w).
Proof.
  intros Hcache Hfb Hall HA HB.
  pose proof (get_all_rates_offline self env w Hcache Hall) as Hrates.
  rewrite Hfb in Hrates.
  revert B HB. revert A HA.
  apply (supported_cases (λ A, ∀ B, supported B = true → _)).
  each_code; intros B HB; revert B HB;
    apply (supported_cases (λ B, _)); each_code;
    unfold get_exchange_rate; cbn [String.eqb Ascii.eqb Bool.eqb];
    try (split; reflexivity);
    unfold mbind at 1; unfold M_bind at 1; rewrite Hrates;
    split; vm_compute; reflexivity.
Qed.

Lemma fallback_pairs (A B : string) :
  supported A = true →
  supported B = true →
  ∃ fa fb rab rba inv,
    FALLBACK_RATES !! A = Some fa ∧
    FALLBACK_RATES !! B = Some fb ∧
    cross_rate FALLBACK_RATES A B = Ok rab ∧
    py_truediv fb fa = Ok rab ∧
    cross_rate FALLBACK_RATES B A = Ok rba ∧
    py_truediv 1 rab = Ok inv ∧
    isclose 1e-15 rba inv = true.
Proof.
  intros HA HB. revert B HB. revert A HA.
  apply (supported_cases (λ A, ∀ B, supported B = true → _)).
  each_code; intros B HB; revert B HB;
    apply (supported_cases (λ B, _)); each_code;
    eexists _, _, _, _, _; repeat split; vm_compute; reflexivity.
Qed.

(** C3: with no cached table and no endpoint answering (whatever the
    optional libraries would do), for all supported [A] and [B] the
    resolved rate is exactly [fallback[B] / fallback[A]], and the rate of
    the reverse pair is within relative tolerance 1e-15 of its reciprocal;
    converting 100 USD to EUR then gives the rate 0.8520 and the converted
    amount 85.20, and appends that one record to the history. *)
Theorem C3_offline_rate_is_fallback_cross_rate (self : ExchangeRateService)
    (env : environment) (w : world) (A B : string) :
  cache_rates (rates_cache self) = None →
  fallback_rates self = FALLBACK_RATES →
  Forall (λ u, endpoint_fails (requests_get env u) = true) (api_endpoints self) →
  supported A = true →
  supported B = true →
  (∃ fa fb rab rba inv,
     FALLBACK_RATES !! A = Some fa ∧
     FALLBACK_RATES !! B = Some fb ∧
     (get_exchange_rate self env A B w).1 = Ok rab ∧
     py_truediv fb fa = Ok rab ∧
     (get_exchange_rate self env B A w).1 = Ok rba ∧
     py_truediv 1 rab = Ok inv ∧
     isclose 1e-15 rba inv = true) ∧
  (∀ hist, ∃ hist' w',
     convert_currency self hist env "USD" "EUR" 100 w
       = (Ok (hist', Some (0.8520, 85.20)%float), w') ∧
     history hist' =
       last_n 100 (history hist ++
         [stamp env {| amount := 100;
                       from_currency := "USD";
                       to_currency := "EUR";
                       exchange_rate := 0.8520;
                       converted_amount := 85.20;
                       timestamp := None;
                       readable_time := None |}])).
Proof.
  intros Hcache Hfb Hall HA HB. split.
  - destruct (fallback_pairs A B HA HB)
      as (fa & fb & rab & rba & inv & Hfa & Hfb' & Hab & Hdiv & Hba & Hinv & Hclose).
    exists fa, fb, rab, rba, inv.
    destruct (offline_rate self env w A B Hcache Hfb Hall HA HB) as [_ ->].
    destruct (offline_rate self env w B A Hcache Hfb Hall HB HA) as [_ ->].
    simpl. rewrite Hab, Hba. repeat split; assumption.
  - intros hist. unfold convert_currency. run.
    change (PrimFloat.leb 100 0) with false. cbn beta iota.
    destruct (offline_rate self env w "USD" "EUR" Hcache Hfb Hall eq_refl eq_refl)
      as [_ ->].
    change (cross_rate FALLBACK_RATES "USD" "EUR") with (Ok 0.8520%float).
    cbn beta iota.
    change (100 * 0.8520)%float with 85.20%float.
    match goal with
    | |- context [add_conversion hist env ?d ?w1] =>
        destruct (add_conversion_history hist env d w1) as [w2 ->]
    end.
    eexists _, w2. split; reflexivity.
Qed.

End Properties.

(** * Further properties of the code *)

Section Coverage.
Context `{Datetime}.

(** ** DataManager and the persistence of the history *)


Lemma add_conversion_kept (self : ConversionHistory) (env : environment)
    (d : conversion) :
  (if (Config.MAX_HISTORY_ENTRIES <? Z.of_nat (length (history self ++ [stamp env d])))%Z
   then py_slice_from (- Config.MAX_HISTORY_ENTRIES) (history self ++ [stamp env d])
   else history self ++ [stamp env d])
  = last_n 100 (history self ++ [stamp env d]).
Proof.
  unfold Config.MAX_HISTORY_ENTRIES.
  destruct (Z.ltb_spec 100 (Z.of_nat (length (history self ++ [stamp env d])))) as [Hlt|Hge].
  - rewrite py_slice_from_neg by lia. reflexivity.
  - symmetry. apply last_n_all. lia.
Qed.

(** The world that [add_conversion] leaves. *)
Lemma add_conversion_world (self : ConversionHistory) (env : environment)
    (d : conversion) (w : world) :
  ∃ w',
    add_conversion self env d w =
      (Ok {| history := last_n 100 (history self ++ [stamp env d]) |}, w') ∧
    history_file w' =
      (if disk_writable env
       then FileData (last_n 100 (history self ++ [stamp env d]))
       else history_file w) ∧
    rates_cache_file w' = rates_cache_file w ∧
    trace w' = trace w ++ [EvHistoryFileWrite].
Proof.
  unfold add_conversion. rewrite add_conversion_kept.
  unfold save_json_file. run. simpl.
  destruct (disk_writable env); simpl; eexists; repeat split; reflexivity.
Qed.

Lemma clear_history_world (self : ConversionHistory) (env : environment) (w : world) :
  ∃ w',
    clear_history self env w = (Ok ({| history := [] |}, disk_writable env), w') ∧
    history_file w' = (if disk_writable env then FileData [] else history_file w) ∧
    rates_cache_file w' = rates_cache_file w.
Proof.
  unfold clear_history, save_json_file. run. simpl.
  destruct (disk_writable env); simpl; eexists; repeat split; reflexivity.
Qed.

Lemma init_in_sync (self : ConversionHistory) (w : world) :
  history_file w = FileData (history self) →
  (ConversionHistory_init w).1 = Ok self.
Proof.
  intros Hsync. unfold ConversionHistory_init, load_json_file. run. simpl.
  rewrite Hsync. destruct self. reflexivity.
Qed.

(** X2: as long as every save goes through, the history file holds exactly
    the log in memory after any sequence of [add_conversion] and
    [clear_history] calls, so that a [ConversionHistory()] constructed
    afterwards starts from the same log. *)
Theorem X2_history_file_follows_memory (ops : list (environment * history_op))
    (self : ConversionHistory) (w : world) :
  history_file w = FileData (history self) →
  Forall (λ p, disk_writable p.1 = true) ops →
  ∃ self' w',
    run_ops self ops w = (Ok self', w') ∧
    history_file w' = FileData (history self') ∧
    (ConversionHistory_init w').1 = Ok self'.
Proof.
  revert self w. induction ops as [|[env op] ops IH]; intros self w Hsync Hall.
  - exists self, w. split; [reflexivity|]. split; [exact Hsync|].
    apply init_in_sync, Hsync.
  - apply Forall_cons in Hall as [Hdisk Hall]. simpl in Hdisk.
    cbn [run_ops]. unfold mbind at 1. unfold M_bind at 1.
    destruct op as [d|]; unfold apply_op; cbn [snd fst].
    + destruct (add_conversion_world self env d w) as (w1 & -> & Hfile & _).
      rewrite Hdisk in Hfile. apply IH; [exact Hfile | exact Hall].
    + unfold mbind at 1. unfold M_bind at 1.
      destruct (clear_history_world self env w) as (w1 & -> & Hfile & _).
      rewrite Hdisk in Hfile. apply (IH {| history := [] |}); [exact Hfile | exact Hall].
Qed.

(** X3: [add_conversion] never raises, whether or not the save goes
    through; the record it was given ends the log, stamped with the time of
    the call and otherwise unchanged; the history file holds the new log
    when the save goes through, and the rate cache file is not touched. *)
Theorem X3_add_conversion_appends_stamped_record (self : ConversionHistory)
    (env : environment) (d : conversion) (w : world) :
  ∃ self' w' c,
    add_conversion self env d w = (Ok self', w') ∧
    last (history self') = Some c ∧
    timestamp c = Some (isoformat (now env)) ∧
    readable_time c = Some (strftime_readable (now env)) ∧
    (amount c, from_currency c, to_currency c, exchange_rate c, converted_amount c)
      = (amount d, from_currency d, to_currency d, exchange_rate d, converted_amount d) ∧
    (disk_writable env = true → history_file w' = FileData (history self')) ∧
    rates_cache_file w' = rates_cache_file w.
Proof.
  destruct (add_conversion_world self env d w) as (w' & Hadd & Hfile & Hcache & _).
  eexists _, w', (stamp env d). split; [exact Hadd|]. simpl.
  split.
  - unfold last_n. rewrite drop_app_le by (rewrite length_app; simpl; lia).
    apply last_snoc.
  - repeat split; try assumption.
    intros Hdisk. rewrite Hdisk in Hfile. exact Hfile.
Qed.

(** X22: the cap of 100 is enforced by [add_conversion], not by the
    constructor: [ConversionHistory()] loads every record of the file,
    however many, and one [add_conversion] then leaves
    [min(100, n + 1)] records. *)
Theorem X22_cap_is_established_by_the_first_append (data : list conversion)
    (w : world) :
  history_file w = FileData data →
  (ConversionHistory_init w).1 = Ok {| history := data |} ∧
  ∀ env d w1, ∃ self' w',
    add_conversion {| history := data |} env d w1 = (Ok self', w') ∧
    length (history self') = Nat.min 100 (length data + 1).
Proof.
  intros Hfile. split.
  - apply (init_in_sync {| history := data |}). exact Hfile.
  - intros env d w1.
    destruct (add_conversion_world {| history := data |} env d w1) as (w' & -> & _).
    eexists _, w'. split; [reflexivity|]. simpl.
    rewrite last_n_length, length_app. simpl. reflexivity.
Qed.

(** ** get_recent_history *)

(** X4: for every limit, [get_recent_history] returns a suffix of the log
    (records are never reordered, repeated or invented); for a limit of at
    least 1 that suffix has [min(limit, len(history))] records. *)
Theorem X4_recent_history_is_a_suffix (self : ConversionHistory) (limit : Z) :
  (∃ older, history self = older ++ get_recent_history self limit) ∧
  ((1 ≤ limit)%Z →
   length (get_recent_history self limit)
     = Nat.min (Z.to_nat limit) (length (history self))).
Proof.
  split.
  - unfold get_recent_history, py_slice_from.
    destruct (history self) as [|c h] eqn:Hh.
    + exists []. reflexivity.
    + eexists. symmetry. apply take_drop.
  - intros Hpos. rewrite get_recent_history_positive by lia. apply last_n_length.
Qed.

(** X5: a negative limit [-k] makes [get_recent_history] return the log
    without its first [k] records ([history[k:]]). *)
Theorem X5_recent_history_negative_limit (self : ConversionHistory) (k : Z) :
  (0 < k)%Z →
  get_recent_history self (- k) = drop (Z.to_nat k) (history self).
Proof.
  intros Hk. unfold get_recent_history, py_slice_from.
  destruct (history self) as [|c h] eqn:Hh.
  - rewrite drop_nil. reflexivity.
  - destruct (Z.ltb_spec (- - k) 0) as [?|_]; [lia|].
    destruct (decide (Z.to_nat k ≤ length (c :: h))) as [Hle|Hgt].
    + f_equal. lia.
    + rewrite !drop_ge by lia. reflexivity.
Qed.

Lemma last_n_app_exact {A} (l1 l2 : list A) :
  last_n (length l2) (l1 ++ l2) = l2.
Proof.
  unfold last_n. rewrite length_app.
  replace (length l1 + length l2 - length l2) with (length l1) by lia.
  apply drop_app_length.
Qed.

(** X21: after appending [n] conversions, with [n] between 1 and 100,
    [get_recent_history(n)] returns exactly those [n] records, stamped, in
    the order in which they were appended. *)
Theorem X21_recent_history_returns_what_was_appended
    (calls : list (environment * conversion)) (self : ConversionHistory) (w : world) :
  length (history self) ≤ 100 →
  1 ≤ length calls ≤ 100 →
  ∃ self' w',
    run_ops self (map (λ c, (c.1, OpAdd c.2)) calls) w = (Ok self', w') ∧
    get_recent_history self' (Z.of_nat (length calls))
      = map (λ c, stamp c.1 c.2) calls.
Proof.
  intros Hlen Hcalls.
  destruct (run_adds_history calls self w Hlen) as [w' Hrun].
  eexists _, w'. split; [exact Hrun|].
  rewrite get_recent_history_positive by lia. cbn [history].
  rewrite Nat2Z.id. unfold last_n at 2.
  rewrite drop_app_le by (rewrite length_app, length_map; lia).
  rewrite <- (length_map (λ c, stamp c.1 c.2) calls) at 1.
  apply last_n_app_exact.
Qed.

(** ** The rate cache and the service constructor *)

(** X6: [_save_cache] never raises. A table that it wrote is what
    [_load_cache] returns, with the timestamp of the save, for 300 seconds;
    from 300 seconds on [_load_cache] returns the empty dictionary. *)
Theorem X6_save_cache_then_load_cache (env1 env2 : environment)
    (rates : RateTable) (w : world) :
  fromisoformat (isoformat (now env1)) = Some (now env1) →
  ∃ w1,
    _save_cache env1 rates w = (Ok tt, w1) ∧
    (disk_writable env1 = true →
     (_load_cache env2 w1).1 =
       Ok (if (now env2 - now env1 <? timedelta_seconds 300)%Z
           then {| cache_rates := Some rates;
                   cache_timestamp := Some (isoformat (now env1)) |}
           else empty_dict)).
Proof.
  intros Hrt. unfold _save_cache. run. simpl.
  destruct (disk_writable env1); simpl; eexists; (split; [reflexivity|]);
    try discriminate.
  intros _. unfold _load_cache, datetime_fromisoformat. run. simpl.
  rewrite Hrt. simpl. unfold Config.CACHE_DURATION.
  destruct (now env2 - now env1 <? timedelta_seconds 300)%Z; reflexivity.
Qed.

(** X7: whatever the cache file holds, loading it never makes the
    constructor fail, and the cache kept in memory is either empty or the
    content of the file with a timestamp less than 300 seconds old at
    construction; the endpoints and the static table are the fixed ones. *)
Theorem X7_constructor_never_keeps_a_stale_cache (env : environment) (w : world) :
  ∃ self w',
    ExchangeRateService_init env w = (Ok self, w') ∧
    api_endpoints self = API_ENDPOINTS ∧
    fallback_rates self = FALLBACK_RATES ∧
    (rates_cache self = empty_dict ∨
     ∃ ts T, rates_cache_file w = FileData (rates_cache self) ∧
             cache_timestamp (rates_cache self) = Some ts ∧
             fromisoformat ts = Some T ∧
             (now env - T < timedelta_seconds 300)%Z).
Proof.
  assert (Hempty : ∀ (self : ExchangeRateService) (w' : world),
            api_endpoints self = API_ENDPOINTS →
            fallback_rates self = FALLBACK_RATES →
            rates_cache self = empty_dict →
            ∃ (self0 : ExchangeRateService) (w0 : world), (Ok self, w') = (Ok self0, w0) ∧
              api_endpoints self0 = API_ENDPOINTS ∧
              fallback_rates self0 = FALLBACK_RATES ∧
              (rates_cache self0 = empty_dict ∨
               ∃ ts T, rates_cache_file w = FileData (rates_cache self0) ∧
                       cache_timestamp (rates_cache self0) = Some ts ∧
                       fromisoformat ts = Some T ∧
                       (now env - T < timedelta_seconds 300)%Z)).
  { intros self w' H1 H2 H3. exists self, w'. auto. }
  unfold ExchangeRateService_init, _load_cache, datetime_fromisoformat. run. simpl.
  destruct (rates_cache_file w) as [| |cache] eqn:Hfile; simpl;
    [apply Hempty; reflexivity | apply Hempty; reflexivity |].
  destruct (cache_timestamp cache) as [ts|] eqn:Hts; simpl;
    [|apply Hempty; reflexivity].
  destruct (fromisoformat ts) as [T|] eqn:Hparse; simpl;
    [|apply Hempty; reflexivity].
  destruct (Z.ltb_spec (now env - T) (timedelta_seconds Config.CACHE_DURATION))
    as [Hlt|Hge]; simpl; [|apply Hempty; reflexivity].
  eexists _, _. split; [reflexivity|]. simpl.
  split; [reflexivity|]. split; [reflexivity|]. right.
  exists ts, T. split; [reflexivity|]. split; [exact Hts|].
  split; [exact Hparse | exact Hlt].
Qed.

(** ** Fetching rates *)

Lemma fetch_one_answers (env : environment) (url : string) (rates : RateTable)
    (w : world) :
  endpoint_answers (requests_get env url) rates →
  fetch_one env url w = (Ok (Some rates), add_trace [EvHttpGet url] w).
Proof.
  unfold endpoint_answers, fetch_one. intros ->. reflexivity.
Qed.

Lemma fetch_loop_first_answer (env : environment) (pre post : list string)
    (url : string) (rates : RateTable) (w : world) :
  Forall (λ u, endpoint_fails (requests_get env u) = true) pre →
  endpoint_answers (requests_get env url) rates →
  fetch_loop env (pre ++ url :: post) w =
    (Ok (Some rates), add_trace (map EvHttpGet (pre ++ [url])) w).
Proof.
  revert w. induction pre as [|u pre IH]; intros w Hpre Hurl; simpl.
  - unfold mbind, M_bind. rewrite (fetch_one_answers env url rates w Hurl). reflexivity.
  - apply Forall_cons in Hpre as [Hu Hpre].
    unfold mbind, M_bind. rewrite (fetch_one_fails env u w Hu), (IH _ Hpre Hurl).
    rewrite add_trace_add_trace. reflexivity.
Qed.

(** X8: [_fetch_rates_from_api] returns the table of the first endpoint,
    in the configured order, that answers 200 with a 'rates' key; the
    endpoints before it are each requested once, the ones after it are not
    requested at all, and no file is touched. *)
Theorem X8_first_answering_endpoint_wins (self : ExchangeRateService)
    (env : environment) (pre post : list string) (url : string)
    (rates : RateTable) (w : world) :
  api_endpoints self = pre ++ url :: post →
  Forall (λ u, endpoint_fails (requests_get env u) = true) pre →
  endpoint_answers (requests_get env url) rates →
  _fetch_rates_from_api self env w =
    (Ok (Some rates),
     {| rates_cache_file := rates_cache_file w;
        history_file := history_file w;
        trace := trace w ++ map EvHttpGet pre ++ [EvHttpGet url] |}).
Proof.
  intros Hurls Hpre Hurl. unfold _fetch_rates_from_api. rewrite Hurls.
  rewrite (fetch_loop_first_answer env pre post url rates w Hpre Hurl).
  unfold add_trace. rewrite map_app. reflexivity.
Qed.

(** X9: with nothing cached and every endpoint failing, [get_all_rates]
    returns the static table after requesting each endpoint once, in the
    configured order; no file is written. *)
Theorem X9_all_endpoints_failing_gives_static_table (self : ExchangeRateService)
    (env : environment) (w : world) :
  cache_rates (rates_cache self) = None →
  Forall (λ u, endpoint_fails (requests_get env u) = true) (api_endpoints self) →
  get_all_rates self env "USD" w =
    (Ok (fallback_rates self),
     {| rates_cache_file := rates_cache_file w;
        history_file := history_file w;
        trace := trace w ++ EvCacheLookup :: map EvHttpGet (api_endpoints self)
                   ++ [EvFallbackLookup] |}).
Proof.
  intros Hcache Hall. rewrite (get_all_rates_offline self env w Hcache Hall).
  reflexivity.
Qed.

(** X17: an endpoint that answers 200 with an empty 'rates' table ends
    the search all the same: the endpoints after it are not requested, the
    static table is returned and the cache file is not written. *)
Theorem X17_empty_table_ends_the_search (self : ExchangeRateService)
    (env : environment) (pre post : list string) (url : string) (w : world) :
  cache_rates (rates_cache self) = None →
  api_endpoints self = pre ++ url :: post →
  Forall (λ u, endpoint_fails (requests_get env u) = true) pre →
  endpoint_answers (requests_get env url) ∅ →
  get_all_rates self env "USD" w =
    (Ok (fallback_rates self),
     {| rates_cache_file := rates_cache_file w;
        history_file := history_file w;
        trace := trace w ++ EvCacheLookup :: map EvHttpGet pre
                   ++ [EvHttpGet url; EvFallbackLookup] |}).
Proof.
  intros Hcache Hurls Hpre Hurl.
  unfold get_all_rates, _fetch_rates_from_api. rewrite Hcache, Hurls.
  unfold mbind at 1. unfold M_bind at 1. unfold emit.
  unfold mbind at 1. unfold M_bind at 1.
  rewrite (fetch_loop_first_answer env pre post url ∅ _ Hpre Hurl).
  unfold rates_truthy. rewrite bool_decide_eq_true_2 by reflexivity.
  cbn [negb]. run. unfold add_trace. simpl. f_equal. f_equal.
  rewrite map_app. simpl. rewrite <- !app_assoc. reflexivity.
Qed.

(** The static table quotes supported codes only. *)
Lemma fallback_keys_supported (k : string) :
  is_Some (FALLBACK_RATES !! k) → supported k = true.
Proof.
  intros [v Hv]. unfold FALLBACK_RATES in Hv.
  apply elem_of_list_to_map_2 in Hv. unfold FALLBACK_RATES_ITEMS in Hv.
  repeat (apply elem_of_cons in Hv as [Hv|Hv]; [injection Hv as -> _; reflexivity|]).
  apply elem_of_nil in Hv. destruct Hv.
Qed.

(** What [get_all_rates] does when an endpoint answers with a non-empty
    table and nothing is cached. *)
Lemma get_all_rates_fetched (self : ExchangeRateService) (env : environment)
    (pre post : list string) (url : string) (rates : RateTable) (w : world) :
  cache_rates (rates_cache self) = None →
  api_endpoints self = pre ++ url :: post →
  Forall (λ u, endpoint_fails (requests_get env u) = true) pre →
  endpoint_answers (requests_get env url) rates →
  rates ≠ ∅ →
  get_all_rates self env "USD" w =
    (Ok (filter (λ kv, supported kv.1 = true) rates),
     {| rates_cache_file :=
          if disk_writable env
          then FileData {| cache_rates := Some (filter (λ kv, supported kv.1 = true) rates);
                           cache_timestamp := Some (isoformat (now env)) |}
          else rates_cache_file w;
        history_file := history_file w;
        trace := trace w ++ EvCacheLookup :: map EvHttpGet pre
                   ++ [EvHttpGet url; EvCacheFileWrite] |}).
Proof.
  intros Hcache Hurls Hpre Hurl Hne.
  unfold get_all_rates, _fetch_rates_from_api. rewrite Hcache, Hurls.
  unfold mbind at 1. unfold M_bind at 1. unfold emit.
  unfold mbind at 1. unfold M_bind at 1.
  rewrite (fetch_loop_first_answer env pre post url rates _ Hpre Hurl).
  unfold rates_truthy. rewrite bool_decide_eq_false_2 by exact Hne.
  cbn [negb]. unfold _save_cache. run. simpl.
  destruct (disk_writable env); unfold add_trace; simpl; f_equal; f_equal;
    rewrite map_app; simpl; rewrite <- !app_assoc; reflexivity.
Qed.

Lemma get_all_rates_uncached_keys (self : ExchangeRateService)
    (env : environment) (w : world) :
  cache_rates (rates_cache self) = None →
  fallback_rates self = FALLBACK_RATES →
  ∃ table w',
    get_all_rates self env "USD" w = (Ok table, w') ∧
    ∀ k, is_Some (table !! k) → supported k = true.
Proof.
  intros Hcache Hfb. unfold get_all_rates, _fetch_rates_from_api, emit.
  rewrite Hcache, Hfb. unfold mbind, M_bind.
  destruct (fetch_loop_total env (api_endpoints self) (add_trace [EvCacheLookup] w))
    as (rates & w1 & ->).
  destruct rates as [r0|];
    [destruct (rates_truthy (Some r0))|];
    try (unfold mret, M_ret; eexists _, _; split; [reflexivity|];
         exact fallback_keys_supported).
  destruct (save_cache_total env (filter (λ kv, supported kv.1 = true) r0) w1)
    as [w2 ->].
  unfold mret, M_ret. eexists _, _. split; [reflexivity|].
  intros k [v Hv]. apply map_lookup_filter_Some in Hv as [_ Hk]. exact Hk.
Qed.

(** X10: with nothing cached, every code of the table that [get_all_rates]
    returns is a supported currency, whatever the endpoints answer and
    whether or not the cache file can be written; the call never raises. *)
Theorem X10_uncached_table_holds_supported_codes_only (self : ExchangeRateService)
    (env : environment) (w : world) :
  cache_rates (rates_cache self) = None →
  fallback_rates self = FALLBACK_RATES →
  ∃ table w',
    get_all_rates self env "USD" w = (Ok table, w') ∧
    ∀ k, is_Some (table !! k) → supported k = true.
Proof. apply get_all_rates_uncached_keys. Qed.

(** X11: when nothing is cached and an endpoint answers with a non-empty
    table, [get_all_rates] returns that table restricted to the supported
    codes, whether or not the cache file can be written; when the write
    goes through, the cache file holds that table with the time of the
    call. The history file is not touched, and the endpoints after the
    answering one are not requested. *)
Theorem X11_fetched_table_is_filtered_and_cached (self : ExchangeRateService)
    (env : environment) (pre post : list string) (url : string)
    (rates : RateTable) (w : world) :
  cache_rates (rates_cache self) = None →
  api_endpoints self = pre ++ url :: post →
  Forall (λ u, endpoint_fails (requests_get env u) = true) pre →
  endpoint_answers (requests_get env url) rates →
  rates ≠ ∅ →
  ∃ table w',
    get_all_rates self env "USD" w = (Ok table, w') ∧
    (∀ k, table !! k = if supported k then rates !! k else None) ∧
    (disk_writable env = true →
     rates_cache_file w' =
       FileData {| cache_rates := Some table;
                   cache_timestamp := Some (isoformat (now env)) |}) ∧
    history_file w' = history_file w ∧
    trace w' = trace w ++ EvCacheLookup :: map EvHttpGet pre
                 ++ [EvHttpGet url; EvCacheFileWrite].
Proof.
  intros Hcache Hurls Hpre Hurl Hne.
  rewrite (get_all_rates_fetched self env pre post url rates w Hcache Hurls Hpre Hurl Hne).
  eexists _, _. split; [reflexivity|]. simpl. split; [|repeat split].
  - intros k. destruct (supported k) eqn:Hk.
    + destruct (rates !! k) as [v|] eqn:Hv.
      * apply map_lookup_filter_Some. split; [exact Hv | exact Hk].
      * apply map_lookup_filter_None. left. exact Hv.
    + apply map_lookup_filter_None. right. intros v _. simpl. rewrite Hk. discriminate.
  - intros Hdisk. rewrite Hdisk. reflexivity.
Qed.

(** ** Rate resolution *)

Lemma get_exchange_rate_tiers (self : ExchangeRateService) (env : environment)
    (A B : string) (t : RateTable) (w w1 : world) :
  A ≠ B →
  get_all_rates self env "USD" w = (Ok t, w1) →
  table_resolves t A B = false →
  get_exchange_rate self env A B w = library_tiers self env A B w1.
Proof.
  intros HAB Hrates Hres. apply String.eqb_neq in HAB.
  unfold get_exchange_rate. rewrite HAB.
  unfold mbind at 1. unfold M_bind at 1. rewrite Hrates.
  unfold table_resolves in Hres.
  apply orb_false_elim in Hres as [Hres H3].
  apply orb_false_elim in Hres as [H1 H2].
  rewrite H1, H2, H3. reflexivity.
Qed.

Lemma get_all_rates_cached (self : ExchangeRateService) (env : environment)
    (t : RateTable) (w : world) :
  cache_rates (rates_cache self) = Some t →
  get_all_rates self env "USD" w = (Ok t, add_trace [EvCacheLookup] w).
Proof. intros Hcache. unfold get_all_rates. rewrite Hcache. reflexivity. Qed.

(** The truth test in [if rate and rate > 0] adds nothing to the
    comparison. *)
Lemma usable_rate_is_positive (r : float) : usable_rate r = PrimFloat.ltb 0 r.
Proof.
  unfold usable_rate, py_truthy. rewrite FloatAxioms.eqb_spec, FloatAxioms.ltb_spec.
  change (Prim2SF 0) with (S754_zero false).
  destruct (Prim2SF r) as [[]|[]| |[] m e]; reflexivity.
Qed.

Lemma library_attempt_answer (ev : event) (o : lib_outcome) (w : world) :
  library_attempt ev o w = (Ok (library_answer true o), add_trace [ev] w).
Proof.
  unfold library_attempt, library_answer. run. simpl.
  destruct o as [|r]; simpl; [reflexivity|].
  rewrite usable_rate_is_positive. destruct (PrimFloat.ltb 0 r); reflexivity.
Qed.

Lemma get_fallback_rate_value (self : ExchangeRateService) (A B : string) (w : world) :
  (_get_fallback_rate self A B w).1 = Ok (fallback_value (fallback_rates self) A B).
Proof.
  unfold _get_fallback_rate, fallback_value, py_in, py_getitem, py_truediv. run. simpl.
  destruct (fallback_rates self !! A) as [fa|]; simpl;
    [destruct (fallback_rates self !! B) as [fb|]; simpl|]; try reflexivity.
  destruct (PrimFloat.eqb fa 0); reflexivity.
Qed.

Lemma library_tiers_total (self : ExchangeRateService) (env : environment)
    (A B : string) (w : world) :
  ∃ r w', library_tiers self env A B w = (Ok r, w').
Proof.
  unfold library_tiers. unfold mbind, M_bind.
  destruct (FOREX_AVAILABLE env && bool_decide (is_Some (forex_rates self)));
    [rewrite library_attempt_answer;
     destruct (library_answer true (forex_get_rate env A B)) as [r|];
     [unfold mret, M_ret; eauto|]
    | unfold mret at 1; unfold M_ret at 1];
    (destruct (CONVERTER_AVAILABLE env && bool_decide (is_Some (lib_converter self)));
     [rewrite library_attempt_answer;
      destruct (library_answer true (cc_convert_one env A B)) as [r|];
      [unfold mret, M_ret; eauto|]
     | unfold mret at 1; unfold M_ret at 1];
     match goal with
     | |- context [_get_fallback_rate self A B ?w2] =>
         destruct (get_fallback_rate_total self A B w2) as [r ->]; eauto
     end).
Qed.

(** X12: whatever the cache, the network and the libraries do, the only
    exception that leaves [get_exchange_rate] is ZeroDivisionError, and a
    rate from USD never raises at all (that branch returns the quoted rate
    without dividing). *)
Theorem X12_only_zero_division_escapes (self : ExchangeRateService)
    (env : environment) (A B : string) (w : world) :
  match (get_exchange_rate self env A B w).1 with
  | Ok _ => True
  | Raise e => e = ZeroDivisionError
  end ∧
  is_ok (get_exchange_rate self env "USD" B w).1 = true.
Proof.
  split; [apply get_exchange_rate_raises_only_zero_division|].
  destruct (String.eqb_spec "USD" B) as [<-|HB].
  { unfold get_exchange_rate. reflexivity. }
  destruct (get_all_rates_total self env "USD" w) as (t & w1 & Hrates).
  destruct (py_in B t) eqn:HinB.
  - unfold get_exchange_rate. apply String.eqb_neq in HB. rewrite HB.
    unfold mbind at 1. unfold M_bind at 1. rewrite Hrates.
    cbn [String.eqb Ascii.eqb Bool.eqb andb]. rewrite HinB.
    destruct (py_in_getitem _ _ HinB) as (v & _ & Hv).
    unfold lift. simpl. rewrite Hv. reflexivity.
  - rewrite (get_exchange_rate_tiers self env "USD" B t w w1 HB Hrates).
    + destruct (library_tiers_total self env "USD" B w1) as (r & w' & ->). reflexivity.
    + unfold table_resolves. rewrite HinB, !andb_false_r.
      assert (String.eqb B "USD" = false) as ->
        by (apply String.eqb_neq; congruence).
      reflexivity.
Qed.

(** X13: when a table is cached in memory, a pair of codes it quotes is
    resolved from it alone: from USD the quoted rate is returned as it
    is, to USD its reciprocal, otherwise the quotient of the two rates
    (ZeroDivisionError on a zero divisor). Only the cache is consulted: no
    request, no library call, no file access, and this at any clock time,
    the age of the cached table not being checked again. *)
Theorem X13_cached_table_resolves_pair (self : ExchangeRateService)
    (env : environment) (A B : string) (t : RateTable) (a b : float) (w : world) :
  cache_rates (rates_cache self) = Some t →
  A ≠ B →
  t !! A = Some a →
  t !! B = Some b →
  get_exchange_rate self env A B w =
    (if String.eqb A "USD" then Ok b
     else if String.eqb B "USD" then py_truediv 1 a
     else py_truediv b a,
     {| rates_cache_file := rates_cache_file w;
        history_file := history_file w;
        trace := trace w ++ [EvCacheLookup] |}).
Proof.
  intros Hcache HAB Ha Hb. apply String.eqb_neq in HAB.
  assert (HinA : py_in A t = true)
    by (unfold py_in; apply bool_decide_eq_true_2; eauto).
  assert (HinB : py_in B t = true)
    by (unfold py_in; apply bool_decide_eq_true_2; eauto).
  assert (HgetA : py_getitem t A = Ok a) by (unfold py_getitem; rewrite Ha; reflexivity).
  assert (HgetB : py_getitem t B = Ok b) by (unfold py_getitem; rewrite Hb; reflexivity).
  unfold get_exchange_rate. rewrite HAB.
  unfold mbind at 1. unfold M_bind at 1.
  rewrite (get_all_rates_cached self env t w Hcache), HinA, HinB.
  run. rewrite HgetA, HgetB.
  destruct (String.eqb A "USD"); [reflexivity|].
  destruct (String.eqb B "USD"); reflexivity.
Qed.

(** X14: when the table at hand cannot resolve the pair, the rate comes
    from the first of forex-python and currency-converter that is
    installed, returns without raising and answers above zero; a missing,
    failing, zero, negative or NaN answer passes the turn, and when neither
    library contributes the static table decides. *)
Theorem X14_first_usable_library_answer_wins (self : ExchangeRateService)
    (env : environment) (A B : string) (t : RateTable) (w w1 : world) :
  A ≠ B →
  get_all_rates self env "USD" w = (Ok t, w1) →
  table_resolves t A B = false →
  (get_exchange_rate self env A B w).1 =
    match library_answer (FOREX_AVAILABLE env && bool_decide (is_Some (forex_rates self)))
            (forex_get_rate env A B) with
    | Some r => Ok r
    | None =>
        match library_answer
                (CONVERTER_AVAILABLE env && bool_decide (is_Some (lib_converter self)))
                (cc_convert_one env A B) with
        | Some r => Ok r
        | None => Ok (fallback_value (fallback_rates self) A B)
        end
    end.
Proof.
  intros HAB Hrates Hres.
  rewrite (get_exchange_rate_tiers self env A B t w w1 HAB Hrates Hres).
  unfold library_tiers. unfold mbind, M_bind.
  destruct (FOREX_AVAILABLE env && bool_decide (is_Some (forex_rates self)));
    [rewrite library_attempt_answer;
     destruct (library_answer true (forex_get_rate env A B)) as [r|];
     [reflexivity|]
    | unfold mret at 1; unfold M_ret at 1; cbn [library_answer]];
    (destruct (CONVERTER_AVAILABLE env && bool_decide (is_Some (lib_converter self)));
     [rewrite library_attempt_answer;
      destruct (library_answer true (cc_convert_one env A B)) as [r|];
      [reflexivity|]
     | unfold mret at 1; unfold M_ret at 1; cbn [library_answer]];
     apply get_fallback_rate_value).
Qed.

(** X15: with nothing cached and no library installed, a pair in which
    one code is not a supported currency gets the rate 1.0, whatever the
    endpoints answer: filtering keeps such a code out of every fetched
    table, and the static table does not quote it. *)
Theorem X15_unsupported_code_defaults_to_one (self : ExchangeRateService)
    (env : environment) (A B : string) (w : world) :
  cache_rates (rates_cache self) = None →
  fallback_rates self = FALLBACK_RATES →
  FOREX_AVAILABLE env = false →
  CONVERTER_AVAILABLE env = false →
  A ≠ B →
  supported A = false ∨ supported B = false →
  (get_exchange_rate self env A B w).1 = Ok 1%float.
Proof.
  intros Hcache Hfb Hforex Hconv HAB Hunsup.
  destruct (get_all_rates_uncached_keys self env w Hcache Hfb) as (t & w1 & Hrates & Hkeys).
  assert (Hout : ∀ k, supported k = false → py_in k t = false ∧ String.eqb k "USD" = false).
  { intros k Hk. split.
    - unfold py_in. apply bool_decide_eq_false_2. intros Hin.
      apply Hkeys in Hin. congruence.
    - apply String.eqb_neq. intros ->. discriminate. }
  rewrite (get_exchange_rate_tiers self env A B t w w1 HAB Hrates).
  - unfold library_tiers. rewrite Hforex, Hconv. cbn [andb].
    unfold mbind, M_bind, mret, M_ret. rewrite get_fallback_rate_value.
    f_equal. unfold fallback_value. rewrite Hfb.
    destruct Hunsup as [HA|HB'].
    + destruct (FALLBACK_RATES !! A) as [fa|] eqn:Hfa; [|reflexivity].
      rewrite (fallback_keys_supported A) in HA by eauto. discriminate.
    + destruct (FALLBACK_RATES !! B) as [fb|] eqn:Hfb'.
      * rewrite (fallback_keys_supported B) in HB' by eauto. discriminate.
      * destruct (FALLBACK_RATES !! A); reflexivity.
  - unfold table_resolves. destruct Hunsup as [HA|HB'].
    + destruct (Hout A HA) as [-> ->]. rewrite andb_false_r. reflexivity.
    + destruct (Hout B HB') as [-> ->]. rewrite !andb_false_r. reflexivity.
Qed.

(** *** What a rate lookup leaves untouched *)

Lemma frame_refl {A} (r : result A) : lookup_frame (λ w, (r, w)).
Proof. intros w. simpl. split; [reflexivity|]. exists []. rewrite app_nil_r. reflexivity. Qed.

Lemma frame_emit (e : event) : lookup_frame (emit e).
Proof. intros w. unfold emit. simpl. split; [reflexivity | eauto]. Qed.

Lemma frame_write_cache (c : cache_dict) : lookup_frame (write_cache_file c).
Proof.
  intros w. unfold write_cache_file. simpl. split; [reflexivity|].
  exists []. rewrite app_nil_r. reflexivity.
Qed.

Lemma frame_step (w w1 w2 : world) :
  (history_file w1 = history_file w ∧ ∃ evs, trace w1 = trace w ++ evs) →
  (history_file w2 = history_file w1 ∧ ∃ evs, trace w2 = trace w1 ++ evs) →
  history_file w2 = history_file w ∧ ∃ evs, trace w2 = trace w ++ evs.
Proof.
  intros (Hh1 & [evs1 Ht1]) (Hh2 & [evs2 Ht2]).
  split; [congruence|].
  exists (evs1 ++ evs2). rewrite Ht2, Ht1, app_assoc. reflexivity.
Qed.

Lemma frame_bind {A B} (m : M A) (f : A → M B) :
  lookup_frame m → (∀ a, lookup_frame (f a)) → lookup_frame (m ≫= f).
Proof.
  intros Hm Hf w. unfold mbind, M_bind.
  pose proof (Hm w) as Hw. destruct (m w) as [[a|e] w1]; simpl in *; [|exact Hw].
  eapply frame_step; [exact Hw | apply Hf].
Qed.

Lemma frame_try {A} (body handler : M A) (catches : exn → bool) :
  lookup_frame body → lookup_frame handler →
  lookup_frame (try_except body catches handler).
Proof.
  intros Hb Hh w. unfold try_except.
  pose proof (Hb w) as Hw. destruct (body w) as [[a|e] w1]; simpl in *; [exact Hw|].
  destruct (catches e); [|exact Hw].
  eapply frame_step; [exact Hw | apply Hh].
Qed.

Ltac frame :=
  repeat first
    [ apply frame_emit
    | apply frame_write_cache
    | apply (frame_refl _)
    | apply frame_try
    | apply frame_bind; [|intros]
    | match goal with
      | |- lookup_frame (match ?x with _ => _ end) => destruct x
      | |- lookup_frame (if ?b then _ else _) => destruct b
      end ].

Lemma frame_fetch_loop (env : environment) (urls : list string) :
  lookup_frame (fetch_loop env urls).
Proof.
  induction urls as [|u urls IH]; cbn [fetch_loop].
  - apply (frame_refl (Ok None)).
  - apply frame_bind.
    + unfold fetch_one, raise, mret, M_ret. frame.
    + intros [rates|]; [apply (frame_refl (Ok (Some rates))) | exact IH].
Qed.

Lemma frame_get_all_rates (self : ExchangeRateService) (env : environment)
    (base_currency : string) :
  lookup_frame (get_all_rates self env base_currency).
Proof.
  unfold get_all_rates, _fetch_rates_from_api, _save_cache, raise, mret, M_ret.
  apply frame_bind; [apply frame_emit|]. intros _.
  destruct (cache_rates (rates_cache self));
    [destruct (String.eqb base_currency "USD"); [apply (frame_refl (Ok _))|]|];
    (apply frame_bind; [apply frame_fetch_loop|]; intros rates; cbv zeta; frame).
Qed.

Lemma frame_get_exchange_rate (self : ExchangeRateService) (env : environment)
    (A B : string) :
  lookup_frame (get_exchange_rate self env A B).
Proof.
  unfold get_exchange_rate.
  destruct (String.eqb A B); [apply (frame_refl (Ok _))|].
  apply frame_bind; [apply frame_get_all_rates|]. intros t.
  unfold _get_fallback_rate, library_attempt, lift, raise, mret, M_ret. frame.
Qed.

(** X16: a call of [get_exchange_rate], whatever it returns or raises,
    never changes the history file and never removes anything from the
    record of accesses. *)
Theorem X16_rate_lookup_leaves_history_file_alone (self : ExchangeRateService)
    (env : environment) (A B : string) (w : world) :
  history_file (get_exchange_rate self env A B w).2 = history_file w ∧
  ∃ evs, trace (get_exchange_rate self env A B w).2 = trace w ++ evs.
Proof. apply frame_get_exchange_rate. Qed.

(** *** What a rate lookup does not read *)

Lemma blind_refl {A} (r : result A) : disk_blind (λ w, (r, w)).
Proof. intros w w'. reflexivity. Qed.

Lemma blind_emit (e : event) : disk_blind (emit e).
Proof. intros w w'. reflexivity. Qed.

Lemma blind_write_cache (c : cache_dict) : disk_blind (write_cache_file c).
Proof. intros w w'. reflexivity. Qed.

Lemma blind_bind {A B} (m : M A) (f : A → M B) :
  disk_blind m → (∀ a, disk_blind (f a)) → disk_blind (m ≫= f).
Proof.
  intros Hm Hf w w'. unfold mbind, M_bind.
  pose proof (Hm w w') as Hr.
  destruct (m w) as [[a|e] w1], (m w') as [[a'|e'] w1']; simpl in Hr;
    try discriminate; injection Hr as <-; [apply Hf | reflexivity].
Qed.

Lemma blind_try {A} (body handler : M A) (catches : exn → bool) :
  disk_blind body → disk_blind handler → disk_blind (try_except body catches handler).
Proof.
  intros Hb Hh w w'. unfold try_except.
  pose proof (Hb w w') as Hr.
  destruct (body w) as [[a|e] w1], (body w') as [[a'|e'] w1']; simpl in Hr;
    try discriminate; injection Hr as <-; [reflexivity|].
  destruct (catches e); [apply Hh | reflexivity].
Qed.

Ltac blind :=
  repeat first
    [ apply blind_emit
    | apply blind_write_cache
    | apply (blind_refl _)
    | apply blind_try
    | apply blind_bind; [|intros]
    | match goal with
      | |- disk_blind (match ?x with _ => _ end) => destruct x
      | |- disk_blind (if ?b then _ else _) => destruct b
      end ].

Lemma blind_fetch_loop (env : environment) (urls : list string) :
  disk_blind (fetch_loop env urls).
Proof.
  induction urls as [|u urls IH]; cbn [fetch_loop].
  - apply (blind_refl (Ok None)).
  - apply blind_bind.
    + unfold fetch_one, raise, mret, M_ret. blind.
    + intros [rates|]; [apply (blind_refl (Ok (Some rates))) | exact IH].
Qed.

Lemma blind_get_all_rates (self : ExchangeRateService) (env : environment)
    (base_currency : string) :
  disk_blind (get_all_rates self env base_currency).
Proof.
  unfold get_all_rates, _fetch_rates_from_api, _save_cache, raise, mret, M_ret.
  apply blind_bind; [apply blind_emit|]. intros _.
  destruct (cache_rates (rates_cache self));
    [destruct (String.eqb base_currency "USD"); [apply (blind_refl (Ok _))|]|];
    (apply blind_bind; [apply blind_fetch_loop|]; intros rates; cbv zeta; blind).
Qed.

(** X24: the rate that [get_exchange_rate] returns, or the exception it
    raises, does not depend on the files on disk at the time of the call:
    it is decided by the table cached in the object, the answers of the
    endpoints and of the libraries, and the static table. The cache file
    is read by the constructor only. *)
Theorem X24_rate_does_not_depend_on_the_disk (self : ExchangeRateService)
    (env : environment) (A B : string) (w w' : world) :
  (get_exchange_rate self env A B w).1 = (get_exchange_rate self env A B w').1.
Proof.
  revert w w'. change (disk_blind (get_exchange_rate self env A B)).
  unfold get_exchange_rate.
  destruct (String.eqb A B); [apply (blind_refl (Ok _))|].
  apply blind_bind; [apply blind_get_all_rates|]. intros t.
  unfold _get_fallback_rate, library_attempt, lift, raise, mret, M_ret. blind.
Qed.

Lemma init_loads_fresh_cache (env : environment) (w : world) (c : cache_dict)
    (ts : string) (T : Z) :
  rates_cache_file w = FileData c →
  cache_timestamp c = Some ts →
  fromisoformat ts = Some T →
  (now env - T < timedelta_seconds 300)%Z →
  ExchangeRateService_init env w =
    (Ok {| forex_rates := if FOREX_AVAILABLE env then Some CurrencyRates_new else None;
           lib_converter :=
             if CONVERTER_AVAILABLE env then Some LibCurrencyConverter_new else None;
           rates_cache := c;
           api_endpoints := API_ENDPOINTS;
           fallback_rates := FALLBACK_RATES |},
     add_trace [EvCacheFileRead] w).
Proof.
  intros Hfile Hts Hparse Hfresh.
  unfold ExchangeRateService_init, _load_cache, datetime_fromisoformat. run. simpl.
  rewrite Hfile, Hts, Hparse. simpl.
  destruct (Z.ltb_spec (now env - T) (timedelta_seconds Config.CACHE_DURATION))
    as [_|Hge]; [reflexivity | unfold Config.CACHE_DURATION in Hge; lia].
Qed.

(** X25: a table fetched by one service object reaches the next one
    through the cache file: a service constructed less than 300 seconds
    after the fetch was saved holds the fetched, filtered table, and its
    [get_all_rates] returns it without any request, at any later time. *)
Theorem X25_fetched_table_serves_the_next_object (self1 : ExchangeRateService)
    (env1 env2 : environment) (pre post : list string) (url : string)
    (rates : RateTable) (w : world) :
  cache_rates (rates_cache self1) = None →
  api_endpoints self1 = pre ++ url :: post →
  Forall (λ u, endpoint_fails (requests_get env1 u) = true) pre →
  endpoint_answers (requests_get env1 url) rates →
  rates ≠ ∅ →
  disk_writable env1 = true →
  fromisoformat (isoformat (now env1)) = Some (now env1) →
  (now env2 - now env1 < timedelta_seconds 300)%Z →
  ∃ table w1 self2 w2,
    get_all_rates self1 env1 "USD" w = (Ok table, w1) ∧
    ExchangeRateService_init env2 w1 = (Ok self2, w2) ∧
    cache_rates (rates_cache self2) = Some table ∧
    ∀ env3 w3,
      get_all_rates self2 env3 "USD" w3 = (Ok table, add_trace [EvCacheLookup] w3).
Proof.
  intros Hcache Hurls Hpre Hurl Hne Hdisk Hrt Hfresh.
  rewrite (get_all_rates_fetched self1 env1 pre post url rates w
             Hcache Hurls Hpre Hurl Hne).
  rewrite Hdisk.
  set (table := filter (λ kv, supported kv.1 = true) rates).
  set (c := {| cache_rates := Some table;
               cache_timestamp := Some (isoformat (now env1)) |}).
  set (w1 := {| rates_cache_file := FileData c;
                history_file := history_file w;
                trace := trace w ++ EvCacheLookup :: map EvHttpGet pre
                           ++ [EvHttpGet url; EvCacheFileWrite] |}).
  exists table, w1,
    {| forex_rates := if FOREX_AVAILABLE env2 then Some CurrencyRates_new else None;
       lib_converter :=
         if CONVERTER_AVAILABLE env2 then Some LibCurrencyConverter_new else None;
       rates_cache := c;
       api_endpoints := API_ENDPOINTS;
       fallback_rates := FALLBACK_RATES |},
    (add_trace [EvCacheFileRead] w1).
  split; [reflexivity|]. split.
  - apply (init_loads_fresh_cache env2 w1 c (isoformat (now env1)) (now env1));
      [reflexivity | reflexivity | exact Hrt | exact Hfresh].
  - split; [reflexivity|].
    intros env3 w3. apply get_all_rates_cached. reflexivity.
Qed.

(** ** convert_currency *)


(** ** get_currency_trends *)

Lemma get_currency_trends_recent (self : ConversionHistory) (env : environment)
    (days : Z) :
  get_currency_trends self env days =
    let recent :=
      filter (λ c, in_window (now env - timedelta_days days) c = true) (history self) in
    if (length recent <? 2)%nat then Ok []
    else currency_rates ← group_by_pair [] recent; trends_loop [] currency_rates.
Proof.
  unfold get_currency_trends. destruct (history self); reflexivity.
Qed.

(** X18: the trends depend on the records inside the lookback window
    only: two logs that agree on the records whose timestamp reads as a
    time at or after the cutoff, in their order, give the same result or
    the same exception, whatever else they hold (older records, records
    without a timestamp or with an unreadable one). *)
Theorem X18_trends_depend_on_window_only (self1 self2 : ConversionHistory)
    (env : environment) (days : Z) :
  filter (λ c, in_window (now env - timedelta_days days) c = true) (history self1)
    = filter (λ c, in_window (now env - timedelta_days days) c = true) (history self2) →
  get_currency_trends self1 env days = get_currency_trends self2 env days.
Proof.
  intros Hsame. rewrite !get_currency_trends_recent. cbv zeta. rewrite Hsame. reflexivity.
Qed.





End Coverage.

(** ** Concrete inputs *)

#[local] Existing Instance canonical_datetime.

(** C7 at a cache written at 11:59:00 and read 299 seconds later. *)
Lemma C7_load_cache_validity_window_witness :
  let c := Samples.cache_written FALLBACK_RATES "2024-03-01T11:59:00" in
  let w := Samples.world_with_cache c in
  let T := (Samples.noon - timedelta_seconds 60)%Z in
  let env := Samples.offline (T + timedelta_seconds 299) in
  rates_cache_file w = FileData c ∧
  cache_timestamp c = Some "2024-03-01T11:59:00" ∧
  fromisoformat "2024-03-01T11:59:00" = Some T ∧
  (_load_cache env w).1 = Ok c.
Proof.
  cbv zeta.
  split; [reflexivity|]. split; [reflexivity|]. split; [vm_compute; reflexivity|].
  refine (proj1 (proj2 (proj2
    (C7_load_cache_validity_window
       (Samples.offline (Samples.noon - timedelta_seconds 60 + timedelta_seconds 299))
       (Samples.world_with_cache
          (Samples.cache_written FALLBACK_RATES "2024-03-01T11:59:00"))
       (Samples.cache_written FALLBACK_RATES "2024-03-01T11:59:00")
       "2024-03-01T11:59:00"
       (Samples.noon - timedelta_seconds 60) eq_refl eq_refl _))) eq_refl).
  vm_compute. reflexivity.
Defined.

(** C1, on a cached table in which EUR has rate 0: the service loads the
    cache, and [get_exchange_rate("EUR", "USD")] raises ZeroDivisionError
    instead of returning a value. *)
Theorem C1_zero_rate_in_cached_table_raises :
  let env := Samples.offline Samples.noon in
  let w := Samples.world_with_cache Samples.zero_eur_cache in
  ∃ self w1 w2,
    ExchangeRateService_init env w = (Ok self, w1) ∧
    cache_rates (rates_cache self) = Some (<["EUR" := 0%float]> FALLBACK_RATES) ∧
    supported "EUR" = true ∧
    supported "USD" = true ∧
    get_exchange_rate self env "EUR" "USD" w1 = (Raise ZeroDivisionError, w2).
Proof.
  cbv zeta. eexists _, _, _.
  repeat split; vm_compute; reflexivity.
Qed.

(** C2, with no cache file, no endpoint answering and forex-python
    installed and ready to answer 0.9: [get_exchange_rate("USD", "EUR")]
    returns the static 0.8520, and the trace shows the cache lookup, the
    three requests and the fallback lookup, but no call to the library. *)
Theorem C2_static_table_used_before_libraries :
  let env := Samples.offline_with_forex Samples.noon in
  ∃ self w1 w2,
    ExchangeRateService_init env Samples.empty_world = (Ok self, w1) ∧
    rates_cache self = empty_dict ∧
    Forall (λ u, endpoint_fails (requests_get env u) = true) (api_endpoints self) ∧
    FOREX_AVAILABLE env = true ∧
    is_Some (forex_rates self) ∧
    forex_get_rate env "USD" "EUR" = LibReturns 0.9 ∧
    usable_rate 0.9 = true ∧
    get_exchange_rate self env "USD" "EUR" w1 = (Ok 0.8520%float, w2) ∧
    trace w2 = trace w1 ++
      [ EvCacheLookup;
        EvHttpGet "https://api.exchangerate-api.com/v4/latest/USD";
        EvHttpGet "https://api.fixer.io/latest?base=USD";
        EvHttpGet "https://open.er-api.com/v6/latest/USD";
        EvFallbackLookup ].
Proof.
  cbv zeta. eexists _, _, _.
  split; [vm_compute; reflexivity|].
  split; [vm_compute; reflexivity|].
  split; [repeat constructor|].
  split; [reflexivity|]. split; [eexists; vm_compute; reflexivity|].
  split; [reflexivity|]. split; [vm_compute; reflexivity|].
  split; vm_compute; reflexivity.
Qed.

(** C3 at USD and EUR, offline, with no cache. *)
Lemma C3_offline_rate_is_fallback_cross_rate_witness :
  let self := Samples.service false empty_dict in
  let env := Samples.offline Samples.noon in
  cache_rates (rates_cache self) = None ∧
  fallback_rates self = FALLBACK_RATES ∧
  Forall (λ u, endpoint_fails (requests_get env u) = true) (api_endpoints self) ∧
  supported "USD" = true ∧
  supported "EUR" = true ∧
  ∃ rab rba,
    (get_exchange_rate self env "USD" "EUR" Samples.empty_world).1 = Ok rab ∧
    py_truediv 0.8520 1 = Ok rab ∧
    (get_exchange_rate self env "EUR" "USD" Samples.empty_world).1 = Ok rba.
Proof.
  cbv zeta.
  assert (Hall : Forall (λ u, endpoint_fails
                    (requests_get (Samples.offline Samples.noon) u) = true)
                   (api_endpoints (Samples.service false empty_dict)))
    by (repeat constructor).
  split; [reflexivity|]. split; [reflexivity|]. split; [exact Hall|].
  split; [reflexivity|]. split; [reflexivity|].
  destruct (C3_offline_rate_is_fallback_cross_rate
              (Samples.service false empty_dict) (Samples.offline Samples.noon)
              Samples.empty_world "USD" "EUR" eq_refl eq_refl Hall eq_refl eq_refl)
    as [(fa & fb & rab & rba & inv & Hfa & Hfb & Hab & Hdiv & Hba & _) _].
  exists rab, rba.
  vm_compute in Hfa. vm_compute in Hfb.
  injection Hfa as <-. injection Hfb as <-.
  split; [exact Hab|]. split; [exact Hdiv | exact Hba].
Defined.

(** C4 as the claim words it fails in two ways. On two USD/EUR samples at
    1.0 then 1.01004 the pair is reported with [change_percent] 1.0, which
    is not above 1, and with direction "rising"; at 1.0 then 0.98996 it is
    reported with -1.0, which is not below -1, and "falling": the direction
    is decided on the change before it is rounded. And on a week with two
    GBP/USD samples of non-zero rate beside a USD/EUR pair whose oldest rate
    is zero, nothing is reported for GBP/USD: the call raises
    ZeroDivisionError. *)
Lemma C4_direction_precedes_rounding_and_zero_rate_loses_all_pairs :
  let env := Samples.offline Samples.noon in
  (length (window_records env 7 "USD/EUR" (history Samples.barely_rising_history)) = 2 ∧
   ∃ trends t,
     get_currency_trends Samples.barely_rising_history env 7 = Ok trends ∧
     alist_lookup "USD/EUR" trends = Some t ∧
     change_percent t = 1%float ∧
     PrimFloat.ltb 1 (change_percent t) = false ∧
     direction t = "rising") ∧
  (length (window_records env 7 "USD/EUR" (history Samples.barely_falling_history)) = 2 ∧
   ∃ trends t,
     get_currency_trends Samples.barely_falling_history env 7 = Ok trends ∧
     alist_lookup "USD/EUR" trends = Some t ∧
     change_percent t = (-1)%float ∧
     PrimFloat.ltb (change_percent t) (-1) = false ∧
     direction t = "falling") ∧
  (length (window_records env 7 "GBP/USD" (history Samples.mixed_history)) = 2 ∧
   Forall (λ c, nonzero (exchange_rate c))
     (window_records env 7 "GBP/USD" (history Samples.mixed_history)) ∧
   get_currency_trends Samples.mixed_history env 7 = Raise ZeroDivisionError).
Proof.
  cbv zeta. split; [|split].
  - split; [vm_compute; reflexivity|].
    eexists _, _. split; [vm_compute; reflexivity|].
    split; [vm_compute; reflexivity|]. repeat split; vm_compute; reflexivity.
  - split; [vm_compute; reflexivity|].
    eexists _, _. split; [vm_compute; reflexivity|].
    split; [vm_compute; reflexivity|]. repeat split; vm_compute; reflexivity.
  - split; [vm_compute; reflexivity|]. split; [|vm_compute; reflexivity].
    vm_compute. repeat constructor.
Qed.

(** C4 on a log of seven records, noon of 2024-03-01, 7 days back. USD/EUR
    has two samples in the week, 0.85 then 0.80, and an older one that does
    not count: -5.88, "falling", 2 data points. GBP/USD has a single sample
    in the week beside an older one: absent. EUR/JPY falls to rate zero:
    -100.0, "falling". *)
Lemma C4_currency_trends_per_pair_witness :
  let env := Samples.offline Samples.noon in
  let h := history Samples.windowed_history in
  (∀ k, 2 ≤ length (window_records env 7 k h) →
        zero_oldest (map point_of (window_records env 7 k h)) = false) ∧
  length (window_records env 7 "USD/EUR" h) = 2 ∧
  length (window_records env 7 "GBP/USD" h) = 1 ∧
  ∃ trends,
    get_currency_trends Samples.windowed_history env 7 = Ok trends ∧
    alist_lookup "USD/EUR" trends =
      Some {| change_percent := (-5.88)%float;
              direction := "falling";
              oldest_rate := 0.85;
              newest_rate := 0.80;
              data_points := 2 |} ∧
    alist_lookup "GBP/USD" trends = None ∧
    alist_lookup "EUR/JPY" trends =
      Some {| change_percent := (-100)%float;
              direction := "falling";
              oldest_rate := 160.0;
              newest_rate := 0;
              data_points := 2 |}.
Proof.
  cbv zeta.
  assert (Hnz : ∀ k,
            2 ≤ length (window_records (Samples.offline Samples.noon) 7 k
                          (history Samples.windowed_history)) →
            zero_oldest (map point_of
              (window_records (Samples.offline Samples.noon) 7 k
                 (history Samples.windowed_history))) = false).
  { apply (window_records_by_record (Samples.offline Samples.noon) 7
             (history Samples.windowed_history)
             (λ grp, zero_oldest (map point_of grp) = false)).
    repeat (apply Forall_cons_2); try apply Forall_nil_2; vm_compute; reflexivity. }
  split; [exact Hnz|]. split; [vm_compute; reflexivity|].
  split; [vm_compute; reflexivity|].
  destruct (C4_currency_trends_per_pair Samples.windowed_history
              (Samples.offline Samples.noon) 7 Hnz) as (trends & Hrun & Hk).
  exists trends. split; [exact Hrun|].
  pose proof (proj1 (Hk "GBP/USD") ltac:(vm_compute; lia)) as Hgbp.
  split; [|split; [exact Hgbp|]].
  - vm_compute in Hrun. injection Hrun as <-. vm_compute. reflexivity.
  - vm_compute in Hrun. injection Hrun as <-. vm_compute. reflexivity.
Defined.

(** C5, on a week in which the oldest USD/EUR sample has rate 0: both
    samples are inside the window, and [get_currency_trends] raises
    ZeroDivisionError instead of returning a mapping. *)
Theorem C5_zero_oldest_rate_raises :
  let env := Samples.offline Samples.noon in
  length (pair_records env 7 "USD/EUR" (history Samples.zero_oldest_history)) = 2 ∧
  get_currency_trends Samples.zero_oldest_history env 7 = Raise ZeroDivisionError.
Proof. cbv zeta. split; vm_compute; reflexivity. Qed.


(** C10 on a one-record log and a disk that refuses writes. *)
Lemma C10_clear_history_empties_memory_on_failed_save_witness :
  let self := {| history := [Samples.record "USD" "EUR" 0.85 "2024-03-01T10:00:00"] |} in
  let env := Samples.read_only Samples.noon in
  disk_writable env = false ∧
  ∃ self' w',
    clear_history self env Samples.empty_world = (Ok (self', false), w') ∧
    history self' = [] ∧
    history_file w' = history_file Samples.empty_world ∧
    ∀ limit, get_recent_history self' limit = [].
Proof.
  cbv zeta. split; [reflexivity|].
  exact (C10_clear_history_empties_memory_on_failed_save
           {| history := [Samples.record "USD" "EUR" 0.85 "2024-03-01T10:00:00"] |}
           (Samples.read_only Samples.noon) Samples.empty_world eq_refl).
Defined.

(** ** Scenarios of the specification *)

(** The canonical format reads back what it writes. *)
Example isoformat_round_trip :
  isoformat Samples.noon = "2024-03-01T12:00:00" ∧
  isoformat (Samples.noon + 123) = "2024-03-01T12:00:00.000123" ∧
  strftime_readable (Samples.noon + 123) = "2024-03-01 12:00:00" ∧
  fromisoformat "2024-03-01T12:00:00" = Some Samples.noon ∧
  fromisoformat "2024-03-01T12:00:00.000123" = Some (Samples.noon + 123)%Z ∧
  fromisoformat "yesterday" = None.
Proof. repeat split; vm_compute; reflexivity. Qed.

(** Trend threshold: 1.0 then 1.02 is rising, by 2.0 percent. *)
Example trend_rising :
  trend_of (Samples.two_samples 1.0 1.02) =
    Ok {| change_percent := 2.0; direction := "rising";
          oldest_rate := 1.0; newest_rate := 1.02; data_points := 2 |}.
Proof. vm_compute. reflexivity. Qed.

(** 1.0 then 0.99 is falling: the quotient is -1.0000000000000009. *)
Example trend_falling :
  trend_of (Samples.two_samples 1.0 0.99) =
    Ok {| change_percent := (-1.0)%float; direction := "falling";
          oldest_rate := 1.0; newest_rate := 0.99; data_points := 2 |}.
Proof. vm_compute. reflexivity. Qed.

(** 1.0 then 1.005 is stable. *)
Example trend_stable :
  trend_of (Samples.two_samples 1.0 1.005) =
    Ok {| change_percent := 0.5; direction := "stable";
          oldest_rate := 1.0; newest_rate := 1.005; data_points := 2 |}.
Proof. vm_compute. reflexivity. Qed.

(** 0.85 then 0.80 is falling, by -5.88 percent. *)
Example trend_usd_eur :
  trend_of (Samples.two_samples 0.85 0.80) =
    Ok {| change_percent := (-5.88)%float; direction := "falling";
          oldest_rate := 0.85; newest_rate := 0.80; data_points := 2 |}.
Proof. vm_compute. reflexivity. Qed.

(** The direction is decided before rounding: a change of 1.004 percent is
    rising and is reported as 1.0. *)
Example trend_rising_reported_as_one :
  trend_of (Samples.two_samples 1.0 1.01004) =
    Ok {| change_percent := 1.0; direction := "rising";
          oldest_rate := 1.0; newest_rate := 1.01004; data_points := 2 |}.
Proof. vm_compute. reflexivity. Qed.

(** Equal timestamps keep their insertion order. *)
Example sort_by_time_stable :
  sort_by_time [ {| rate := 3; time := "2024-03-01T11:00:00" |};
                 {| rate := 1; time := "2024-03-01T10:00:00" |};
                 {| rate := 2; time := "2024-03-01T10:00:00" |} ]
  = [ {| rate := 1; time := "2024-03-01T10:00:00" |};
      {| rate := 2; time := "2024-03-01T10:00:00" |};
      {| rate := 3; time := "2024-03-01T11:00:00" |} ].
Proof. vm_compute. reflexivity. Qed.

(** Clearing an empty log succeeds and leaves it empty. *)
Example clear_empty_history :
  (clear_history {| history := [] |} (Samples.offline Samples.noon) Samples.empty_world).1
  = Ok ({| history := [] |}, true).
Proof. vm_compute. reflexivity. Qed.

(** A code outside the static table reaches the libraries: forex-python is
    called and its 0.9 is returned; without a library the answer is 1.0. *)
Example unknown_code_reaches_libraries :
  (get_exchange_rate (Samples.service true empty_dict)
     (Samples.offline_with_forex Samples.noon) "USD" "XXX" Samples.empty_world).1
  = Ok 0.9%float ∧
  (get_exchange_rate (Samples.service false empty_dict)
     (Samples.offline Samples.noon) "USD" "XXX" Samples.empty_world).1
  = Ok 1.0%float.
Proof. split; vm_compute; reflexivity. Qed.

(** A successful fetch: the second endpoint's table is filtered to the
    supported codes, written to the cache file with the time of the call,
    and used to resolve the pair. *)
Example online_fetch_filters_and_caches :
  get_exchange_rate (Samples.service false empty_dict) (Samples.online Samples.noon)
    "USD" "EUR" Samples.empty_world
  = (Ok 0.9%float,
     {| rates_cache_file :=
          FileData {| cache_rates := Some (list_to_map [("USD", 1.0); ("EUR", 0.9)]%float);
                      cache_timestamp := Some "2024-03-01T12:00:00" |};
        history_file := FileMissing;
        trace := [ EvCacheLookup;
                   EvHttpGet "https://api.exchangerate-api.com/v4/latest/USD";
                   EvHttpGet "https://api.fixer.io/latest?base=USD";
                   EvCacheFileWrite ] |}).
Proof. vm_compute. reflexivity. Qed.

(** After 105 appends the log starts at the sixth record, stamped 12:00:06. *)
Example history_after_105_appends :
  let h := (run_ops {| history := [] |}
              (map (λ c, (c.1, OpAdd c.2)) Samples.calls105) Samples.empty_world).1 in
  match h with
  | Ok self' =>
      length (history self') = 100 ∧
      (timestamp <$> head (history self')) = Some (Some "2024-03-01T12:00:06") ∧
      (timestamp <$> last (history self')) = Some (Some "2024-03-01T12:01:45")
  | Raise _ => False
  end.
Proof. vm_compute. repeat split; reflexivity. Qed.

(** ** Further properties at concrete inputs *)

(** X2 on an append, a clear and an append, all saved. *)
Lemma X2_history_file_follows_memory_witness :
  history_file MoreSamples.synced_world = FileData (history {| history := [] |}) ∧
  Forall (λ p, disk_writable p.1 = true) MoreSamples.three_ops ∧
  ∃ self' w',
    run_ops {| history := [] |} MoreSamples.three_ops MoreSamples.synced_world
      = (Ok self', w') ∧
    history_file w' = FileData (history self') ∧
    (ConversionHistory_init w').1 = Ok self'.
Proof.
  assert (Hall : Forall (λ p, disk_writable p.1 = true) MoreSamples.three_ops)
    by (repeat constructor).
  split; [reflexivity|]. split; [exact Hall|].
  exact (X2_history_file_follows_memory MoreSamples.three_ops {| history := [] |}
           MoreSamples.synced_world eq_refl Hall).
Defined.

(** X5 on the three-record log and the limit -1. *)
Lemma X5_recent_history_negative_limit_witness :
  (0 < 1)%Z ∧
  get_recent_history Samples.falling_history (- 1)
    = drop (Z.to_nat 1) (history Samples.falling_history).
Proof.
  assert (Hk : (0 < 1)%Z) by lia.
  split; [exact Hk|].
  exact (X5_recent_history_negative_limit Samples.falling_history 1 Hk).
Defined.

(** X21 on three appends to the empty log. *)
Lemma X21_recent_history_returns_what_was_appended_witness :
  length (history {| history := [] |}) ≤ 100 ∧
  1 ≤ length MoreSamples.three_calls ≤ 100 ∧
  ∃ self' w',
    run_ops {| history := [] |}
      (map (λ c, (c.1, OpAdd c.2)) MoreSamples.three_calls) Samples.empty_world
      = (Ok self', w') ∧
    get_recent_history self' (Z.of_nat (length MoreSamples.three_calls))
      = map (λ c, stamp c.1 c.2) MoreSamples.three_calls.
Proof.
  assert (H1 : length (history {| history := [] |}) ≤ 100) by (simpl; lia).
  assert (H2 : 1 ≤ length MoreSamples.three_calls ≤ 100) by (simpl; lia).
  split; [exact H1|]. split; [exact H2|].
  exact (X21_recent_history_returns_what_was_appended MoreSamples.three_calls
           {| history := [] |} Samples.empty_world H1 H2).
Defined.

(** X6 on the static table saved at noon and read 299 seconds later. *)
Lemma X6_save_cache_then_load_cache_witness :
  let env1 := Samples.offline Samples.noon in
  let env2 := Samples.offline (Samples.noon + timedelta_seconds 299) in
  fromisoformat (isoformat (now env1)) = Some (now env1) ∧
  disk_writable env1 = true ∧
  ∃ w1,
    _save_cache env1 FALLBACK_RATES Samples.empty_world = (Ok tt, w1) ∧
    (_load_cache env2 w1).1 =
      Ok {| cache_rates := Some FALLBACK_RATES;
            cache_timestamp := Some "2024-03-01T12:00:00" |}.
Proof.
  cbv zeta.
  assert (Hrt : fromisoformat (isoformat (now (Samples.offline Samples.noon)))
                = Some (now (Samples.offline Samples.noon)))
    by (vm_compute; reflexivity).
  split; [exact Hrt|]. split; [reflexivity|].
  destruct (X6_save_cache_then_load_cache (Samples.offline Samples.noon)
              (Samples.offline (Samples.noon + timedelta_seconds 299))
              FALLBACK_RATES Samples.empty_world Hrt) as (w1 & Hsave & Hload).
  exists w1. split; [exact Hsave|]. rewrite (Hload eq_refl).
  vm_compute. reflexivity.
Defined.

(** X8 with the first endpoint down and the second answering. *)
Lemma X8_first_answering_endpoint_wins_witness :
  let self := Samples.service false empty_dict in
  let env := Samples.online Samples.noon in
  api_endpoints self =
    ["https://api.exchangerate-api.com/v4/latest/USD"]
      ++ "https://api.fixer.io/latest?base=USD"
      :: ["https://open.er-api.com/v6/latest/USD"] ∧
  Forall (λ u, endpoint_fails (requests_get env u) = true)
    ["https://api.exchangerate-api.com/v4/latest/USD"] ∧
  endpoint_answers (requests_get env "https://api.fixer.io/latest?base=USD")
    MoreSamples.quoted ∧
  _fetch_rates_from_api self env Samples.empty_world =
    (Ok (Some MoreSamples.quoted),
     {| rates_cache_file := FileMissing;
        history_file := FileMissing;
        trace := [ EvHttpGet "https://api.exchangerate-api.com/v4/latest/USD";
                   EvHttpGet "https://api.fixer.io/latest?base=USD" ] |}).
Proof.
  cbv zeta.
  assert (Hpre : Forall (λ u, endpoint_fails
                    (requests_get (Samples.online Samples.noon) u) = true)
                   ["https://api.exchangerate-api.com/v4/latest/USD"])
    by (repeat constructor).
  assert (Hurl : endpoint_answers
                   (requests_get (Samples.online Samples.noon)
                      "https://api.fixer.io/latest?base=USD") MoreSamples.quoted)
    by reflexivity.
  split; [reflexivity|]. split; [exact Hpre|]. split; [exact Hurl|].
  exact (X8_first_answering_endpoint_wins (Samples.service false empty_dict)
           (Samples.online Samples.noon)
           ["https://api.exchangerate-api.com/v4/latest/USD"]
           ["https://open.er-api.com/v6/latest/USD"]
           "https://api.fixer.io/latest?base=USD" MoreSamples.quoted
           Samples.empty_world eq_refl Hpre Hurl).
Defined.

(** X9 with no cache and no network. *)
Lemma X9_all_endpoints_failing_gives_static_table_witness :
  let self := Samples.service false empty_dict in
  let env := Samples.offline Samples.noon in
  cache_rates (rates_cache self) = None ∧
  Forall (λ u, endpoint_fails (requests_get env u) = true) (api_endpoints self) ∧
  get_all_rates self env "USD" Samples.empty_world =
    (Ok FALLBACK_RATES,
     {| rates_cache_file := FileMissing;
        history_file := FileMissing;
        trace := [ EvCacheLookup;
                   EvHttpGet "https://api.exchangerate-api.com/v4/latest/USD";
                   EvHttpGet "https://api.fixer.io/latest?base=USD";
                   EvHttpGet "https://open.er-api.com/v6/latest/USD";
                   EvFallbackLookup ] |}).
Proof.
  cbv zeta.
  assert (Hall : Forall (λ u, endpoint_fails
                    (requests_get (Samples.offline Samples.noon) u) = true)
                   (api_endpoints (Samples.service false empty_dict)))
    by (repeat constructor).
  split; [reflexivity|]. split; [exact Hall|].
  exact (X9_all_endpoints_failing_gives_static_table (Samples.service false empty_dict)
           (Samples.offline Samples.noon) Samples.empty_world eq_refl Hall).
Defined.

(** X10 with no cache and the second endpoint answering. *)
Lemma X10_uncached_table_holds_supported_codes_only_witness :
  let self := Samples.service false empty_dict in
  cache_rates (rates_cache self) = None ∧
  fallback_rates self = FALLBACK_RATES ∧
  ∃ table w',
    get_all_rates self (Samples.online Samples.noon) "USD" Samples.empty_world
      = (Ok table, w') ∧
    ∀ k, is_Some (table !! k) → supported k = true.
Proof.
  cbv zeta. split; [reflexivity|]. split; [reflexivity|].
  exact (X10_uncached_table_holds_supported_codes_only
           (Samples.service false empty_dict) (Samples.online Samples.noon)
           Samples.empty_world eq_refl eq_refl).
Defined.

Lemma quoted_not_empty : MoreSamples.quoted ≠ ∅.
Proof.
  intros Heq. apply (f_equal (λ m : RateTable, m !! "USD")) in Heq.
  vm_compute in Heq. discriminate.
Qed.

(** X11 with the first endpoint down and the second answering. *)
Lemma X11_fetched_table_is_filtered_and_cached_witness :
  let self := Samples.service false empty_dict in
  let env := Samples.online Samples.noon in
  cache_rates (rates_cache self) = None ∧
  api_endpoints self =
    ["https://api.exchangerate-api.com/v4/latest/USD"]
      ++ "https://api.fixer.io/latest?base=USD"
      :: ["https://open.er-api.com/v6/latest/USD"] ∧
  Forall (λ u, endpoint_fails (requests_get env u) = true)
    ["https://api.exchangerate-api.com/v4/latest/USD"] ∧
  endpoint_answers (requests_get env "https://api.fixer.io/latest?base=USD")
    MoreSamples.quoted ∧
  MoreSamples.quoted ≠ ∅ ∧
  ∃ table w',
    get_all_rates self env "USD" Samples.empty_world = (Ok table, w') ∧
    (∀ k, table !! k = if supported k then MoreSamples.quoted !! k else None) ∧
    (disk_writable env = true →
     rates_cache_file w' =
       FileData {| cache_rates := Some table;
                   cache_timestamp := Some (isoformat (now env)) |}) ∧
    history_file w' = history_file Samples.empty_world ∧
    trace w' = trace Samples.empty_world
                 ++ EvCacheLookup
                    :: map EvHttpGet ["https://api.exchangerate-api.com/v4/latest/USD"]
                 ++ [EvHttpGet "https://api.fixer.io/latest?base=USD"; EvCacheFileWrite].
Proof.
  cbv zeta.
  assert (Hpre : Forall (λ u, endpoint_fails
                    (requests_get (Samples.online Samples.noon) u) = true)
                   ["https://api.exchangerate-api.com/v4/latest/USD"])
    by (repeat constructor).
  assert (Hurl : endpoint_answers
                   (requests_get (Samples.online Samples.noon)
                      "https://api.fixer.io/latest?base=USD") MoreSamples.quoted)
    by reflexivity.
  split; [reflexivity|]. split; [reflexivity|]. split; [exact Hpre|].
  split; [exact Hurl|]. split; [exact quoted_not_empty|].
  exact (X11_fetched_table_is_filtered_and_cached (Samples.service false empty_dict)
           (Samples.online Samples.noon)
           ["https://api.exchangerate-api.com/v4/latest/USD"]
           ["https://open.er-api.com/v6/latest/USD"]
           "https://api.fixer.io/latest?base=USD" MoreSamples.quoted
           Samples.empty_world eq_refl eq_refl Hpre Hurl quoted_not_empty).
Defined.

(** X17 with the first endpoint answering an empty table. *)
Lemma X17_empty_table_ends_the_search_witness :
  let self := Samples.service false empty_dict in
  let env := MoreSamples.empty_answer Samples.noon in
  cache_rates (rates_cache self) = None ∧
  api_endpoints self =
    [] ++ "https://api.exchangerate-api.com/v4/latest/USD"
      :: [ "https://api.fixer.io/latest?base=USD";
           "https://open.er-api.com/v6/latest/USD" ] ∧
  Forall (λ u, endpoint_fails (requests_get env u) = true) [] ∧
  endpoint_answers
    (requests_get env "https://api.exchangerate-api.com/v4/latest/USD") ∅ ∧
  get_all_rates self env "USD" Samples.empty_world =
    (Ok FALLBACK_RATES,
     {| rates_cache_file := FileMissing;
        history_file := FileMissing;
        trace := [ EvCacheLookup;
                   EvHttpGet "https://api.exchangerate-api.com/v4/latest/USD";
                   EvFallbackLookup ] |}).
Proof.
  cbv zeta.
  assert (Hurl : endpoint_answers
                   (requests_get (MoreSamples.empty_answer Samples.noon)
                      "https://api.exchangerate-api.com/v4/latest/USD") ∅)
    by reflexivity.
  split; [reflexivity|]. split; [reflexivity|]. split; [constructor|].
  split; [exact Hurl|].
  exact (X17_empty_table_ends_the_search (Samples.service false empty_dict)
           (MoreSamples.empty_answer Samples.noon) []
           [ "https://api.fixer.io/latest?base=USD";
             "https://open.er-api.com/v6/latest/USD" ]
           "https://api.exchangerate-api.com/v4/latest/USD"
           Samples.empty_world eq_refl eq_refl (Forall_nil_2 _) Hurl).
Defined.

(** X13 on the cached static table, from EUR to GBP. *)
Lemma X13_cached_table_resolves_pair_witness :
  let self := Samples.service false
                (Samples.cache_written FALLBACK_RATES "2024-03-01T11:59:00") in
  let env := Samples.offline (Samples.noon + timedelta_days 30) in
  cache_rates (rates_cache self) = Some FALLBACK_RATES ∧
  "EUR" ≠ "GBP" ∧
  FALLBACK_RATES !! "EUR" = Some 0.8520%float ∧
  FALLBACK_RATES !! "GBP" = Some 0.7315%float ∧
  get_exchange_rate self env "EUR" "GBP" Samples.empty_world =
    (Ok (0.7315 / 0.8520)%float,
     {| rates_cache_file := FileMissing;
        history_file := FileMissing;
        trace := [EvCacheLookup] |}).
Proof.
  cbv zeta.
  assert (Hne : "EUR" ≠ "GBP") by discriminate.
  assert (Ha : FALLBACK_RATES !! "EUR" = Some 0.8520%float) by (vm_compute; reflexivity).
  assert (Hb : FALLBACK_RATES !! "GBP" = Some 0.7315%float) by (vm_compute; reflexivity).
  split; [reflexivity|]. split; [exact Hne|]. split; [exact Ha|]. split; [exact Hb|].
  exact (X13_cached_table_resolves_pair
           (Samples.service false
              (Samples.cache_written FALLBACK_RATES "2024-03-01T11:59:00"))
           (Samples.offline (Samples.noon + timedelta_days 30))
           "EUR" "GBP" FALLBACK_RATES 0.8520%float 0.7315%float Samples.empty_world
           eq_refl Hne Ha Hb).
Defined.

(** X14 on a cached table without OMR, forex-python answering 0.9. *)
Lemma X14_first_usable_library_answer_wins_witness :
  let self := Samples.service true MoreSamples.small_cache in
  let env := Samples.offline_with_forex Samples.noon in
  let t : RateTable := list_to_map [("USD", 1.0); ("EUR", 0.9)]%float in
  "OMR" ≠ "EUR" ∧
  get_all_rates self env "USD" Samples.empty_world
    = (Ok t, add_trace [EvCacheLookup] Samples.empty_world) ∧
  table_resolves t "OMR" "EUR" = false ∧
  (get_exchange_rate self env "OMR" "EUR" Samples.empty_world).1 = Ok 0.9%float.
Proof.
  cbv zeta.
  assert (Hne : "OMR" ≠ "EUR") by discriminate.
  assert (Hrates : get_all_rates (Samples.service true MoreSamples.small_cache)
                     (Samples.offline_with_forex Samples.noon) "USD" Samples.empty_world
                   = (Ok (list_to_map [("USD", 1.0); ("EUR", 0.9)]%float : RateTable),
                      add_trace [EvCacheLookup] Samples.empty_world))
    by reflexivity.
  assert (Hres : table_resolves
                   (list_to_map [("USD", 1.0); ("EUR", 0.9)]%float : RateTable)
                   "OMR" "EUR" = false)
    by (vm_compute; reflexivity).
  split; [exact Hne|]. split; [exact Hrates|]. split; [exact Hres|].
  rewrite (X14_first_usable_library_answer_wins
             (Samples.service true MoreSamples.small_cache)
             (Samples.offline_with_forex Samples.noon) "OMR" "EUR" _ _ _
             Hne Hrates Hres).
  vm_compute. reflexivity.
Defined.

(** X15 on the code XXX, offline and without libraries. *)
Lemma X15_unsupported_code_defaults_to_one_witness :
  let self := Samples.service false empty_dict in
  let env := Samples.online Samples.noon in
  cache_rates (rates_cache self) = None ∧
  fallback_rates self = FALLBACK_RATES ∧
  FOREX_AVAILABLE env = false ∧
  CONVERTER_AVAILABLE env = false ∧
  "XXX" ≠ "EUR" ∧
  (supported "XXX" = false ∨ supported "EUR" = false) ∧
  (get_exchange_rate self env "XXX" "EUR" Samples.empty_world).1 = Ok 1%float.
Proof.
  cbv zeta.
  assert (Hne : "XXX" ≠ "EUR") by discriminate.
  assert (Hun : supported "XXX" = false ∨ supported "EUR" = false)
    by (left; vm_compute; reflexivity).
  split; [reflexivity|]. split; [reflexivity|]. split; [reflexivity|].
  split; [reflexivity|]. split; [exact Hne|]. split; [exact Hun|].
  exact (X15_unsupported_code_defaults_to_one (Samples.service false empty_dict)
           (Samples.online Samples.noon) "XXX" "EUR" Samples.empty_world
           eq_refl eq_refl eq_refl eq_refl Hne Hun).
Defined.

(** X18 on a log and the same log with an old record and an undated
    record of rate zero added. *)
Lemma X18_trends_depend_on_window_only_witness :
  let env := Samples.offline Samples.noon in
  filter (λ c, in_window (now env - timedelta_days 7) c = true)
    (history MoreSamples.cluttered_history)
  = filter (λ c, in_window (now env - timedelta_days 7) c = true)
      (history Samples.falling_history) ∧
  get_currency_trends MoreSamples.cluttered_history env 7
    = get_currency_trends Samples.falling_history env 7.
Proof.
  cbv zeta.
  assert (Hsame :
    filter (λ c, in_window (now (Samples.offline Samples.noon) - timedelta_days 7) c = true)
      (history MoreSamples.cluttered_history)
    = filter (λ c, in_window (now (Samples.offline Samples.noon) - timedelta_days 7) c = true)
        (history Samples.falling_history))
    by (vm_compute; reflexivity).
  split; [exact Hsame|].
  exact (X18_trends_depend_on_window_only MoreSamples.cluttered_history
           Samples.falling_history (Samples.offline Samples.noon) 7 Hsame).
Defined.

(** X22 on a history file of 150 records. *)
Lemma X22_cap_is_established_by_the_first_append_witness :
  let w := MoreSamples.world_with_history MoreSamples.long_file in
  history_file w = FileData MoreSamples.long_file ∧
  length MoreSamples.long_file = 150 ∧
  (ConversionHistory_init w).1 = Ok {| history := MoreSamples.long_file |} ∧
  ∃ self' w',
    add_conversion {| history := MoreSamples.long_file |}
      (Samples.offline Samples.noon) (Samples.request 1) w = (Ok self', w') ∧
    length (history self') = Nat.min 100 (length MoreSamples.long_file + 1).
Proof.
  cbv zeta. split; [reflexivity|]. split; [reflexivity|].
  pose proof (X22_cap_is_established_by_the_first_append MoreSamples.long_file
                (MoreSamples.world_with_history MoreSamples.long_file) eq_refl)
    as [Hinit Hadd].
  split; [exact Hinit|]. apply Hadd.
Defined.

(** X25 on a fetch at noon and a service constructed 299 seconds later. *)
Lemma X25_fetched_table_serves_the_next_object_witness :
  let self1 := Samples.service false empty_dict in
  let env1 := Samples.online Samples.noon in
  let env2 := Samples.offline (Samples.noon + timedelta_seconds 299) in
  cache_rates (rates_cache self1) = None ∧
  api_endpoints self1 =
    ["https://api.exchangerate-api.com/v4/latest/USD"]
      ++ "https://api.fixer.io/latest?base=USD"
      :: ["https://open.er-api.com/v6/latest/USD"] ∧
  Forall (λ u, endpoint_fails (requests_get env1 u) = true)
    ["https://api.exchangerate-api.com/v4/latest/USD"] ∧
  endpoint_answers (requests_get env1 "https://api.fixer.io/latest?base=USD")
    MoreSamples.quoted ∧
  MoreSamples.quoted ≠ ∅ ∧
  disk_writable env1 = true ∧
  fromisoformat (isoformat (now env1)) = Some (now env1) ∧
  (now env2 - now env1 < timedelta_seconds 300)%Z ∧
  ∃ table w1 self2 w2,
    get_all_rates self1 env1 "USD" Samples.empty_world = (Ok table, w1) ∧
    ExchangeRateService_init env2 w1 = (Ok self2, w2) ∧
    cache_rates (rates_cache self2) = Some table ∧
    ∀ env3 w3,
      get_all_rates self2 env3 "USD" w3 = (Ok table, add_trace [EvCacheLookup] w3).
Proof.
  cbv zeta.
  assert (Hpre : Forall (λ u, endpoint_fails
                    (requests_get (Samples.online Samples.noon) u) = true)
                   ["https://api.exchangerate-api.com/v4/latest/USD"])
    by (repeat constructor).
  assert (Hurl : endpoint_answers
                   (requests_get (Samples.online Samples.noon)
                      "https://api.fixer.io/latest?base=USD") MoreSamples.quoted)
    by reflexivity.
  assert (Hrt : fromisoformat (isoformat (now (Samples.online Samples.noon)))
                = Some (now (Samples.online Samples.noon)))
    by (vm_compute; reflexivity).
  assert (Hfresh : (now (Samples.offline (Samples.noon + timedelta_seconds 299))
                    - now (Samples.online Samples.noon) < timedelta_seconds 300)%Z)
    by (vm_compute; reflexivity).
  split; [reflexivity|]. split; [reflexivity|]. split; [exact Hpre|].
  split; [exact Hurl|]. split; [exact quoted_not_empty|]. split; [reflexivity|].
  split; [exact Hrt|]. split; [exact Hfresh|].
  exact (X25_fetched_table_serves_the_next_object (Samples.service false empty_dict)
           (Samples.online Samples.noon)
           (Samples.offline (Samples.noon + timedelta_seconds 299))
           ["https://api.exchangerate-api.com/v4/latest/USD"]
           ["https://open.er-api.com/v6/latest/USD"]
           "https://api.fixer.io/latest?base=USD" MoreSamples.quoted
           Samples.empty_world eq_refl eq_refl Hpre Hurl quoted_not_empty
           eq_refl Hrt Hfresh).
Defined.
